(** * dashboard6.py: loader, filters and aggregations of the health dashboard

    A shallow embedding of the dataframe pipeline of [dashboard6.py]
    (the stricter of the two near-duplicate scripts): the cleaning done by
    [carregar_dados], the sidebar filters that build [df_filtered], and the
    aggregations that feed the KPI, the monthly line chart, the complaint
    search and the top-10 ranking.

    A dataframe is a list of rows in file order; a text cell is [None] for
    NaN and [Some s] for a Python [str]; a timestamp is the number of
    nanoseconds since the epoch, as in a [datetime64[ns]] column. *)

From Stdlib Require Import ZArith NArith List String Ascii Bool Lia.
From Stdlib Require Import Sorting.Sorted Sorting.Permutation.
Import ListNotations.

Local Open Scope Z_scope.

(* ================================================================== *)
(** ** Python text *)

Module PyStr.

(** A Python [str] is a sequence of Unicode code points. *)
Definition char := N.
Definition str := list char.

Definition eqb (a b : str) : bool :=
  if list_eq_dec N.eq_dec a b then true else false.

(** The script is a UTF-8 file: its literals are read here from the same
    bytes.  [utf8] decodes one to four byte sequences; a stray byte is
    kept as it is. *)
Fixpoint utf8_bytes (fuel : nat) (bs : list N) : str :=
  match fuel with
  | O => []
  | S fuel' =>
    match bs with
    | [] => []
    | b0 :: r0 =>
      if (b0 <? 128)%N then b0 :: utf8_bytes fuel' r0
      else match r0 with
      | b1 :: r1 =>
        if (b0 <? 224)%N then
          ((b0 mod 32) * 64 + b1 mod 64)%N :: utf8_bytes fuel' r1
        else match r1 with
        | b2 :: r2 =>
          if (b0 <? 240)%N then
            ((b0 mod 16) * 4096 + (b1 mod 64) * 64 + b2 mod 64)%N
              :: utf8_bytes fuel' r2
          else match r2 with
          | b3 :: r3 =>
            ((b0 mod 8) * 262144 + (b1 mod 64) * 4096
               + (b2 mod 64) * 64 + b3 mod 64)%N :: utf8_bytes fuel' r3
          | [] => b0 :: utf8_bytes fuel' r0
          end
        | [] => b0 :: utf8_bytes fuel' r0
        end
      | [] => [b0]
      end
    end
  end.

Definition utf8 (s : string) : str :=
  let bs := map N_of_ascii (list_ascii_of_string s) in
  utf8_bytes (List.length bs) bs.

(** [str.isspace] on one code point, which is also the class [\s] of a
    [str] pattern in [re]: the characters of bidirectional type WS, B or
    S and of category Zs. *)
Definition isspace (c : char) : bool :=
  ((9 <=? c) && (c <=? 13) || (28 <=? c) && (c <=? 32)
   || (c =? 133) || (c =? 160) || (c =? 5760)
   || (8192 <=? c) && (c <=? 8202)
   || (c =? 8232) || (c =? 8233) || (c =? 8239) || (c =? 8287)
   || (c =? 12288))%N.

(** [str.lstrip()], [str.rstrip()] and [str.strip()] without argument. *)
Fixpoint lstrip (s : str) : str :=
  match s with
  | [] => []
  | c :: s' => if isspace c then lstrip s' else s
  end.

Fixpoint rstrip (s : str) : str :=
  match s with
  | [] => []
  | c :: s' =>
    match rstrip s' with
    | [] => if isspace c then [] else [c]
    | r => c :: r
    end
  end.

Definition strip (s : str) : str := rstrip (lstrip s).

(** Lower-casing of one code point.  The table covers Basic Latin and the
    Latin-1 Supplement, the alphabet of the Portuguese records; other
    code points are left as they are. *)
Definition lower (c : char) : char :=
  (if (65 <=? c) && (c <=? 90) then c + 32
   else if (192 <=? c) && (c <=? 222) && negb (c =? 215) then c + 32
   else c)%N.

End PyStr.

Definition pystr := PyStr.str.
Definition cell := option pystr.

(** [py "..."] is the [str] written as the literal ["..."] in the script. *)
Definition py (s : string) : pystr := PyStr.utf8 s.
Arguments py s%_string.

(* ================================================================== *)
(** ** Regular expressions, as far as the script uses [re] *)

Module Re.
Import PyStr.

Inductive re : Type :=
| Void
| Eps
| Cls (p : char -> bool)
| Cat (a b : re)
| Alt (a b : re)
| Star (a : re).

Definition Chr (c : char) : re := Cls (N.eqb c).
Definition Opt (r : re) : re := Alt r Eps.
Definition Plus (r : re) : re := Cat r (Star r).

Fixpoint Lit (s : str) : re :=
  match s with
  | [] => Eps
  | c :: s' => Cat (Chr c) (Lit s')
  end.

(** A literal under [re.IGNORECASE]: the text character matches when its
    lower-case form is the lower-case form of the pattern character. *)
Definition ChrI (c : char) : re := Cls (fun x => N.eqb (lower x) (lower c)).

Fixpoint LitI (s : str) : re :=
  match s with
  | [] => Eps
  | c :: s' => Cat (ChrI c) (LitI s')
  end.

Inductive Matches : re -> str -> Prop :=
| MEps : Matches Eps []
| MCls p c : p c = true -> Matches (Cls p) [c]
| MCat a b s1 s2 : Matches a s1 -> Matches b s2 -> Matches (Cat a b) (s1 ++ s2)
| MAltL a b s : Matches a s -> Matches (Alt a b) s
| MAltR a b s : Matches b s -> Matches (Alt a b) s
| MStar0 a : Matches (Star a) []
| MStarS a s1 s2 : Matches a s1 -> Matches (Star a) s2 -> Matches (Star a) (s1 ++ s2).

Fixpoint nullable (r : re) : bool :=
  match r with
  | Void => false
  | Eps => true
  | Cls _ => false
  | Cat a b => nullable a && nullable b
  | Alt a b => nullable a || nullable b
  | Star _ => true
  end.

Fixpoint deriv (c : char) (r : re) : re :=
  match r with
  | Void => Void
  | Eps => Void
  | Cls p => if p c then Eps else Void
  | Cat a b =>
    if nullable a then Alt (Cat (deriv c a) b) (deriv c b)
    else Cat (deriv c a) b
  | Alt a b => Alt (deriv c a) (deriv c b)
  | Star a => Cat (deriv c a) (Star a)
  end.

(** [match_here fin r s]: some prefix of [s] matches [r] and the rest of
    [s] passes the end test [fin]. *)
Fixpoint match_here (fin : str -> bool) (r : re) (s : str) : bool :=
  (nullable r && fin s)
  || match s with
     | [] => false
     | c :: s' => match_here fin (deriv c r) s'
     end.

(** A compiled pattern: [bol] and [eol] record a leading [^] and a
    trailing [$]. *)
Record pattern := { bol : bool; body : re; eol : bool }.

(** [$] outside MULTILINE holds at the end of the text and just before a
    newline that ends the text. *)
Definition at_end (anchored : bool) (rest : str) : bool :=
  if anchored then
    match rest with
    | [] => true
    | [c] => (c =? 10)%N
    | _ => false
    end
  else true.

Fixpoint search_from (p : pattern) (s : str) : bool :=
  match_here (at_end (eol p)) (body p) s
  || match s with
     | [] => false
     | _ :: s' => search_from p s'
     end.

(** [rx.search(s) is not None]. *)
Definition search (p : pattern) (s : str) : bool :=
  if bol p then match_here (at_end (eol p)) (body p) s
  else search_from p s.

(** Characters that [re] does not read as themselves. *)
Definition special : str := PyStr.utf8 ".^$*+?{}[]\|()".

Definition is_special (c : char) : bool := existsb (N.eqb c) special.

End Re.

(* ================================================================== *)
(** ** Timestamps and the calendar *)

Module Calendar.

(** A [datetime64[ns]] value: nanoseconds since 1970-01-01T00:00. *)
Definition Timestamp := Z.

Definition NS_PER_DAY : Z := 86400 * 1000000000.

(** [Timedelta.days]: whole days, rounded towards minus infinity. *)
Definition days (td : Z) : Z := td / NS_PER_DAY.

(** [Timestamp.date()], as the number of days since 1970-01-01; the time
    of day is dropped. *)
Definition date (t : Timestamp) : Z := t / NS_PER_DAY.

(** Year, month and day of a day number in the proleptic Gregorian
    calendar. *)
Definition civil_from_days (z0 : Z) : Z * Z * Z :=
  let z := z0 + 719468 in
  let era := z / 146097 in
  let doe := z - era * 146097 in
  let yoe := (doe - doe / 1460 + doe / 36524 - doe / 146096) / 365 in
  let doy := doe - (365 * yoe + yoe / 4 - yoe / 100) in
  let mp := (5 * doy + 2) / 153 in
  let d := doy - (153 * mp + 2) / 5 + 1 in
  let m := if mp <? 10 then mp + 3 else mp - 9 in
  (yoe + era * 400 + (if m <=? 2 then 1 else 0), m, d).

Definition days_from_civil (y0 m d : Z) : Z :=
  let y := if m <=? 2 then y0 - 1 else y0 in
  let era := y / 400 in
  let yoe := y - era * 400 in
  let doy := (153 * (if 2 <? m then m - 3 else m + 9) + 2) / 5 + d - 1 in
  let doe := yoe * 365 + yoe / 4 - yoe / 100 + doy in
  era * 146097 + doe - 719468.

(** The calendar month of a timestamp, counted in months: year * 12 +
    (month - 1).  This is the bin of [resample('M')] the timestamp falls
    in. *)
Definition month_of (t : Timestamp) : Z :=
  let '(y, m, _) := civil_from_days (date t) in y * 12 + (m - 1).

(** The first day of month [k]; and the label [resample('M')] gives the bin
    of month [k], midnight of its last day. *)
Definition first_day (k : Z) : Z := days_from_civil (k / 12) (k mod 12 + 1) 1.

Definition month_end (k : Z) : Timestamp :=
  (first_day (k + 1) - 1) * NS_PER_DAY.

(** Smallest and largest of a column, [None] (NaT) when it is empty. *)
Definition col_min (l : list Z) : option Z :=
  match l with
  | [] => None
  | x :: l' => Some (fold_left Z.min l' x)
  end.

Definition col_max (l : list Z) : option Z :=
  match l with
  | [] => None
  | x :: l' => Some (fold_left Z.max l' x)
  end.

(** Decimal digits and numerals. *)
Definition digit (c : N) : option Z :=
  if ((48 <=? c) && (c <=? 57))%N then Some (Z.of_N c - 48) else None.

Fixpoint number (acc : Z) (s : pystr) : option Z :=
  match s with
  | [] => Some acc
  | c :: s' =>
    match digit c with
    | Some d => number (acc * 10 + d) s'
    | None => None
    end
  end.

(** A reader of calendar dates written [YYYY-MM-DD], midnight of that
    day; anything else is NaT.  It stands for [pd.to_datetime(...,
    errors='coerce')] on files whose dates are written that way, and is
    used to run the pipeline on examples. *)
Definition iso_date (c : cell) : option Timestamp :=
  match c with
  | Some [y1; y2; y3; y4; 45%N; m1; m2; 45%N; d1; d2] =>
    match number 0 [y1; y2; y3; y4], number 0 [m1; m2], number 0 [d1; d2] with
    | Some y, Some m, Some d =>
      let z := days_from_civil y m d in
      if (1 <=? m) && (m <=? 12) && (1 <=? d)
         && (let '(y', m', d') := civil_from_days z in
             (y' =? y) && (m' =? m) && (d' =? d))
      then Some (z * NS_PER_DAY) else None
    | _, _, _ => None
    end
  | _ => None
  end.

End Calendar.

Import Calendar.

(* ================================================================== *)
(** ** Column operations of pandas used by the script *)

Module Pd.

Definition cell_eqb (a b : cell) : bool :=
  match a, b with
  | None, None => true
  | Some x, Some y => PyStr.eqb x y
  | _, _ => false
  end.

(** [Series.astype(str)]: NaN becomes the text [nan]. *)
Definition astype_str (c : cell) : pystr :=
  match c with
  | None => py "nan"
  | Some s => s
  end.

(** [Series.str.strip()]; NaN stays NaN. *)
Definition str_strip (c : cell) : cell := option_map PyStr.strip c.

(** [Series.replace(pat, np.nan, regex=True)] on one cell: a text that the
    pattern finds a match in is replaced as a whole. *)
Definition replace_regex (rx : Re.pattern) (c : cell) : cell :=
  match c with
  | Some s => if Re.search rx s then None else Some s
  | None => None
  end.

(** [Series.replace(old, np.nan)] on one cell. *)
Definition replace_value (old : pystr) (c : cell) : cell :=
  match c with
  | Some s => if PyStr.eqb s old then None else Some s
  | None => None
  end.

(** [Series.isin(values)] on one cell; NaN is found among values that hold
    NaN. *)
Definition isin (c : cell) (values : list cell) : bool :=
  existsb (cell_eqb c) values.

(** [Series.unique()]: the distinct values in order of first appearance. *)
Fixpoint unique_from (seen : list cell) (col : list cell) : list cell :=
  match col with
  | [] => []
  | c :: col' =>
    if isin c seen then unique_from seen col'
    else c :: unique_from (c :: seen) col'
  end.

Definition unique (col : list cell) : list cell := unique_from [] col.

(** [bins.searchsorted(x, side='right')] on increasing edges. *)
Fixpoint searchsorted_right (bins : list Z) (x : Z) : nat :=
  match bins with
  | [] => O
  | b :: bins' => if b <=? x then S (searchsorted_right bins' x) else O
  end.

(** [pd.cut(x, bins, labels=labels, right=False)] on one value: the label
    of the interval [bins[i], bins[i+1]) that holds [x], NaN outside all of
    them and for NaN. *)
Definition cut (bins : list Z) (labels : list pystr) (x : option Z) : cell :=
  match x with
  | None => None
  | Some v =>
    let ids := searchsorted_right bins v in
    if (Nat.eqb ids 0 || Nat.eqb ids (List.length bins))%bool then None
    else nth_error labels (ids - 1)
  end.

(** [Series.dropna()]. *)
Definition notna (c : cell) : bool :=
  match c with Some _ => true | None => false end.

Definition dropna (col : list cell) : list cell := filter notna col.

(** The values of a column that are not NaN. *)
Fixpoint values (col : list cell) : list pystr :=
  match col with
  | [] => []
  | Some s :: col' => s :: values col'
  | None :: col' => values col'
  end.

(** The number of occurrences of [k]. *)
Fixpoint count (k : pystr) (l : list pystr) : nat :=
  match l with
  | [] => O
  | x :: l' => (if PyStr.eqb x k then 1 else 0) + count k l'
  end.

(** The distinct keys and their counts as the hash table of
    [value_counts] yields them: in order of first appearance. *)
Fixpoint keys_from (seen : list pystr) (l : list pystr) : list pystr :=
  match l with
  | [] => []
  | x :: l' =>
    if existsb (PyStr.eqb x) seen then keys_from seen l'
    else x :: keys_from (x :: seen) l'
  end.

Definition counts (l : list pystr) : list (pystr * nat) :=
  map (fun k => (k, count k l)) (keys_from [] l).

(** [sort_values(ascending=False)] of the counts: decreasing count.  No
    [kind] is passed, so the sort underneath is numpy's default quicksort,
    which is not stable: where two counts are equal, the order of their
    entries depends on the algorithm and on the whole table, not on the
    order of first appearance.  That order is left open: [desempate x y]
    tells whether the entry [x], met earlier in the table, comes out
    before the entry [y] of equal count. *)
Definition tie_order : Type := pystr * nat -> pystr * nat -> bool.

Fixpoint insert_desc (desempate : tie_order) (x : pystr * nat)
    (l : list (pystr * nat)) : list (pystr * nat) :=
  match l with
  | [] => [x]
  | y :: l' =>
    if ((snd y <? snd x)%nat || (snd y =? snd x)%nat && desempate x y)%bool
    then x :: y :: l'
    else y :: insert_desc desempate x l'
  end.

Definition sort_values_desc (desempate : tie_order)
    (l : list (pystr * nat)) : list (pystr * nat) :=
  fold_right (insert_desc desempate) [] l.

(** Two tie orders: equal counts in order of first appearance, as a stable
    sort would leave them; and equal counts in the reverse of that order,
    as an ascending sort of a short table read backwards leaves them. *)
Definition primeiros_primeiro : tie_order := fun _ _ => true.

Definition ultimos_primeiro : tie_order := fun _ _ => false.

(** [Series.value_counts()]: NaN is not counted. *)
Definition value_counts (desempate : tie_order) (col : list cell) :
  list (pystr * nat) :=
  sort_values_desc desempate (counts (values col)).

(** [Series.idxmax()]: the label of the first largest value; [None] is the
    ValueError raised on an empty series. *)
Definition idxmax (l : list (pystr * nat)) : option pystr :=
  match l with
  | [] => None
  | x :: l' =>
    Some (fst (fold_left (fun best y => if (snd best <? snd y)%nat then y else best)
                         l' x))
  end.

(** [Series.str.contains(pat, case=False, na=na)] on one cell, for a
    compiled pattern. *)
Definition str_contains (rx : Re.pattern) (na : bool) (c : cell) : bool :=
  match c with
  | Some s => Re.search rx s
  | None => na
  end.

(** The months from [lo] to [hi], both included. *)
Definition month_range (lo hi : Z) : list Z :=
  map (fun i => lo + Z.of_nat i) (seq 0 (Z.to_nat (hi - lo + 1))).

(** [set_index(col).resample('M').size()]: one bin per calendar month from
    the month of the earliest timestamp to the month of the latest, each
    labelled with its last day and holding the number of timestamps that
    fall in it. *)
Definition resample_M_size (index : list Timestamp) : list (Timestamp * nat) :=
  let months := map month_of index in
  match col_min months, col_max months with
  | Some lo, Some hi =>
    map (fun m => (month_end m, count_occ Z.eq_dec months m))
        (month_range lo hi)
  | _, _ => []
  end.

End Pd.

(* ================================================================== *)
(** ** The script *)

(** One line of [saude_processada.csv] as [pd.read_csv] hands it over. *)
Record RawRow := {
  raw_id : cell;
  raw_cidade : cell;
  raw_sexo : cell;
  raw_dataNascimento : cell;
  raw_dataEntrada : cell;
  raw_queixa : cell;
  raw_diagnostico : cell
}.

(** One row of the dataframe [df] once its columns are typed. *)
Record Row := {
  _id : cell;
  cidade : cell;
  sexo : cell;
  dataNascimento : option Timestamp;
  dataEntrada : option Timestamp;
  queixa : cell;
  diagnostico : cell;
  idade_no_atendimento : option Z;
  faixa_etaria : cell
}.

(** The pattern of line 28, [^\.?N[ÃA]O\s+DEFINIDO\.?$], compiled without
    flags. *)
Definition NAO_DEFINIDO : Re.pattern :=
  let ponto := 46%N in
  {| Re.bol := true;
     Re.body :=
       Re.Cat (Re.Opt (Re.Chr ponto))
      (Re.Cat (Re.Chr 78%N)
      (Re.Cat (Re.Cls (fun c => (c =? 195) || (c =? 65))%N)
      (Re.Cat (Re.Chr 79%N)
      (Re.Cat (Re.Plus (Re.Cls PyStr.isspace))
      (Re.Cat (Re.Lit (py "DEFINIDO"))
              (Re.Opt (Re.Chr ponto)))))));
     Re.eol := true |}.

(** Lines 24 to 31 on one cell of [diagnostico]. *)
Definition limpar_diagnostico (c : cell) : cell :=
  let c1 := Pd.str_strip (Some (Pd.astype_str c)) in
  let c2 := Pd.replace_regex NAO_DEFINIDO c1 in
  Pd.replace_value (py "nan") c2.

(** Line 38: [(dataEntrada - dataNascimento).dt.days // 365]; NaT on
    either side gives NaN. *)
Definition idade (entrada nascimento : option Timestamp) : option Z :=
  match entrada, nascimento with
  | Some e, Some n => Some (days (e - n) / 365)
  | _, _ => None
  end.

(** Line 41: the mask [(idade >= 0) & (idade < 120)]; a comparison with
    NaN is false. *)
Definition idade_valida (r : Row) : bool :=
  match idade_no_atendimento r with
  | Some a => (0 <=? a) && (a <? 120)
  | None => false
  end.

Definition bins : list Z := [0; 2; 12; 19; 59; 120].

Definition labels : list pystr :=
  [py "Bebê (0-2)"; py "Criança (3-12)"; py "Adolescente (13-19)";
   py "Adulto (20-59)"; py "Idoso (60+)"].

Definition com_faixa_etaria (r : Row) : Row :=
  {| _id := _id r; cidade := cidade r; sexo := sexo r;
     dataNascimento := dataNascimento r; dataEntrada := dataEntrada r;
     queixa := queixa r; diagnostico := diagnostico r;
     idade_no_atendimento := idade_no_atendimento r;
     faixa_etaria := Pd.cut bins labels (idade_no_atendimento r) |}.

Section Loader.

(** [pd.to_datetime(..., errors='coerce')] on one cell: the timestamp, or
    [None] (NaT) for a missing or unreadable date. *)
Variable to_datetime : cell -> option Timestamp.

(** Lines 24 to 38 on one row: the columns assigned before any row is
    dropped ([faixa_etaria] does not exist yet). *)
Definition tratar (rr : RawRow) : Row :=
  let nascimento := to_datetime (raw_dataNascimento rr) in
  let entrada := to_datetime (raw_dataEntrada rr) in
  {| _id := raw_id rr; cidade := raw_cidade rr; sexo := raw_sexo rr;
     dataNascimento := nascimento; dataEntrada := entrada;
     queixa := raw_queixa rr;
     diagnostico := limpar_diagnostico (raw_diagnostico rr);
     idade_no_atendimento := idade entrada nascimento;
     faixa_etaria := None |}.

Definition carregar_dados (csv : list RawRow) : list Row :=
  map com_faixa_etaria (filter idade_valida (map tratar csv)).

End Loader.

(** Lines 64 to 69: the default of the city multiselect. *)
Definition cidades_default (df : list Row) : list cell :=
  Pd.unique (map cidade df).

(** The timestamps of [dataEntrada] that are not NaT. *)
Fixpoint entradas (df : list Row) : list Timestamp :=
  match df with
  | [] => []
  | r :: df' =>
    match dataEntrada r with
    | Some t => t :: entradas df'
    | None => entradas df'
    end
  end.

(** Lines 74 and 75: [df['dataEntrada'].min().date()] and its twin; [min]
    and [max] skip NaT and give NaT on an empty column. *)
Definition min_date (df : list Row) : option Z :=
  option_map date (col_min (entradas df)).

Definition max_date (df : list Row) : option Z :=
  option_map date (col_max (entradas df)).

(** Lines 89 to 93: the mask of [df_filtered]; a comparison with NaT is
    false. *)
Definition no_filtro (cidades : list cell) (data_inicio data_fim : Z)
    (r : Row) : bool :=
  Pd.isin (cidade r) cidades
  && match dataEntrada r with
     | Some t => (data_inicio <=? date t) && (date t <=? data_fim)
     | None => false
     end.

Definition df_filtered (df : list Row) (cidades : list cell)
    (data_inicio data_fim : Z) : list Row :=
  filter (no_filtro cidades data_inicio data_fim) df.

(** Lines 107 to 110: the most common diagnosis, ["N/A"] when [idxmax]
    raises. *)
Definition top_diag (desempate : Pd.tie_order) (view : list Row) : pystr :=
  match Pd.idxmax (Pd.value_counts desempate
                     (Pd.dropna (map diagnostico view))) with
  | Some d => d
  | None => py "N/A"
  end.

(** Line 120: visits per month. *)
Definition vendas_tempo (view : list Row) : list (Timestamp * nat) :=
  Pd.resample_M_size (entradas view).

(** [re.compile(termo, re.IGNORECASE)] for a term of ordinary characters.
    A term with a character special to [re] is read by pandas as a regular
    expression; that reading is not embedded ([None]). *)
Definition compilar_termo (termo : pystr) : option Re.pattern :=
  if existsb Re.is_special termo then None
  else Some {| Re.bol := false; Re.body := Re.LitI termo; Re.eol := false |}.

(** Lines 169 and 170.  [SemBusca]: the term is empty, the branch is not
    taken and [df_queixa] is never computed.  [TermoRegex]: the term is
    outside [compilar_termo]. *)
Inductive busca : Type :=
| SemBusca
| TermoRegex
| Casos (rows : list Row).

Definition df_queixa (view : list Row) (termo_busca : pystr) : busca :=
  match termo_busca with
  | [] => SemBusca
  | _ :: _ =>
    match compilar_termo termo_busca with
    | None => TermoRegex
    | Some rx =>
      Casos (filter (fun r =>
                       Pd.str_contains rx false (Some (Pd.astype_str (queixa r))))
                    view)
    end
  end.

(** Lines 192 and 193: the ranking. *)
Definition df_clean_diag (view : list Row) : list Row :=
  filter (fun r => Pd.notna (diagnostico r)) view.

Definition top_diagnosticos (desempate : Pd.tie_order) (view : list Row) :
  list (pystr * nat) :=
  firstn 10 (Pd.value_counts desempate (map diagnostico (df_clean_diag view))).

(* ================================================================== *)
(** ** Vocabulary of the statements *)

(** A text that does not start with white space. *)
Inductive no_space_head : pystr -> Prop :=
| nsh_nil : no_space_head []
| nsh_cons c s : PyStr.isspace c = false -> no_space_head (c :: s).

(** The "not defined" placeholder as the pattern of line 28 spells it: an
    optional period, [N], [Ã] or [A], [O], white space, [DEFINIDO], an
    optional period; all letters in upper case. *)
Definition nao_definido (s : pystr) : Prop :=
  exists p a w q,
    s = p ++ [78%N] ++ [a] ++ [79%N] ++ w ++ py "DEFINIDO" ++ q
    /\ (p = [] \/ p = py ".")
    /\ (a = 195%N \/ a = 65%N)
    /\ w <> [] /\ forallb PyStr.isspace w = true
    /\ (q = [] \/ q = py ".").

(** The Dataset row that a line of the file becomes, when it is kept. *)
Definition linha (to_datetime : cell -> option Timestamp) (rr : RawRow) : Row :=
  com_faixa_etaria (tratar to_datetime rr).

(** The age band read off the bin table, left edge included and right edge
    excluded: [0,2), [2,12), [12,19), [19,59), [59,120). *)
Definition faixa_de (a : Z) : pystr :=
  if a <? 2 then py "Bebê (0-2)"
  else if a <? 12 then py "Criança (3-12)"
  else if a <? 19 then py "Adolescente (13-19)"
  else if a <? 59 then py "Adulto (20-59)"
  else py "Idoso (60+)".

(** Position of the first occurrence of a value in a column (the length
    of the column when it does not occur). *)
Fixpoint first_index (k : pystr) (l : list pystr) : nat :=
  match l with
  | [] => O
  | x :: l' => if PyStr.eqb x k then O else S (first_index k l')
  end.

(** The order of a ranking over the diagnoses [ds]: a higher count comes
    first, and of two equal counts the diagnosis met first in [ds]. *)
Definition ranked_before (ds : list pystr) (a b : pystr * nat) : Prop :=
  (snd b < snd a)%nat
  \/ (snd a = snd b /\ (first_index (fst a) ds < first_index (fst b) ds)%nat).

(** The order every ranking has: a count is never followed by a higher
    one. *)
Definition count_desc (a b : pystr * nat) : Prop := (snd b <= snd a)%nat.

(** A view with one row per listed diagnosis, in that order. *)
Definition linhas_com_diagnosticos (ds : list string) : list Row :=
  map (fun d => linha iso_date
                  {| raw_id := Some (py "1"); raw_cidade := Some (py "Bauru");
                     raw_sexo := Some (py "F");
                     raw_dataNascimento := Some (py "2000-01-01");
                     raw_dataEntrada := Some (py "2020-01-01");
                     raw_queixa := Some (py "dor");
                     raw_diagnostico := Some (py d) |}) ds.

(** Six visits with four diagnoses, two of them met twice. *)
Definition visao_empates : list Row :=
  linhas_com_diagnosticos ["d00"; "d01"; "d02"; "d03"; "d02"; "d03"]%string.

(** The calendar month of the visit of a row. *)
Definition mes (r : Row) : option Z := option_map month_of (dataEntrada r).

(** The number of rows of a view whose visit falls in month [m]. *)
Definition visitas_no_mes (view : list Row) (m : Z) : nat :=
  List.length
    (filter (fun r => match mes r with
                      | Some k => k =? m
                      | None => false
                      end) view).

(** [termo] occurs in [s] when letter case is ignored. *)
Definition contem_sem_caixa (termo s : pystr) : Prop :=
  exists a m b, s = a ++ m ++ b
                /\ map PyStr.lower m = map PyStr.lower termo.

(** A row with the given complaint, visited on 2020-01-01 by a patient
    born on 2000-01-01. *)
Definition linha_com_queixa (q : cell) : Row :=
  linha iso_date
    {| raw_id := Some (py "1"); raw_cidade := Some (py "Bauru");
       raw_sexo := Some (py "F");
       raw_dataNascimento := Some (py "2000-01-01");
       raw_dataEntrada := Some (py "2020-01-01");
       raw_queixa := q; raw_diagnostico := Some (py ".NÃO DEFINIDO.") |}.

(** A small file to run the pipeline on: five lines, the third born
    after the visit and the fifth without a readable visit date. *)
Definition registro (cid entrada nascimento q d : string) : RawRow :=
  {| raw_id := Some (py "1"); raw_cidade := Some (py cid);
     raw_sexo := Some (py "F");
     raw_dataNascimento := Some (py nascimento);
     raw_dataEntrada := Some (py entrada);
     raw_queixa := Some (py q); raw_diagnostico := Some (py d) |}.

Definition exemplo : list RawRow :=
  [registro "Bauru" "2020-01-01" "2000-01-01" "Febre alta" ".NÃO DEFINIDO.";
   registro "Marília" "2020-03-05" "2019-01-01" "febre e tosse" "GRIPE";
   registro "Bauru" "2020-03-07" "2021-01-01" "dor" "GRIPE";
   registro "Bauru" "2020-06-07" "1950-01-01" "dor" "  ASMA ";
   registro "Bauru" "07/06/2020" "1950-01-01" "dor" "ASMA"].

(* ================================================================== *)
(** ** The rest of the script: KPIs, period, diagnosis profile *)

(** [np.sort] of an array of [str]: Python compares texts code point by
    code point, a proper prefix coming first. *)
Module Np.

Fixpoint str_leb (a b : pystr) : bool :=
  match a, b with
  | [], _ => true
  | _ :: _, [] => false
  | x :: a', y :: b' =>
    if (x <? y)%N then true
    else if (x =? y)%N then str_leb a' b'
    else false
  end.

Fixpoint insert (x : pystr) (l : list pystr) : list pystr :=
  match l with
  | [] => [x]
  | y :: l' => if str_leb x y then x :: l else y :: insert x l'
  end.

Definition sort (l : list pystr) : list pystr := fold_right insert [] l.

End Np.

(** Lines 102 and 103: [len(df_filtered)] and
    [df_filtered['_id'].nunique()]; [nunique] does not count NaN. *)
Definition total_atendimentos (view : list Row) : nat := List.length view.

Definition pacientes_unicos (view : list Row) : nat :=
  List.length (Pd.unique (Pd.dropna (map _id view))).

(** Lines 77 to 86: the two dates are unpacked from what the date widget
    returns; when it does not return exactly two dates the unpacking
    raises ValueError and the whole observed span is taken. *)
Definition periodo (selecao : list Z) (min_date max_date : Z) : Z * Z :=
  match selecao with
  | [data_inicio; data_fim] => (data_inicio, data_fim)
  | _ => (min_date, max_date)
  end.

(** Line 139 and the options of line 142. *)
Definition lista_diagnosticos (view : list Row) : list cell :=
  Pd.unique (Pd.dropna (map diagnostico view)).

Definition opcoes_diagnostico (view : list Row) : list pystr :=
  Np.sort (Pd.values (lista_diagnosticos view)).

(** Lines 144 and 145: the profile of the chosen diagnosis; an empty text
    is false for [if diag_selecionado:], so nothing is computed for it.
    A NaN cell is never equal to the chosen text. *)
Definition df_diag (view : list Row) (diag_selecionado : pystr) :
  option (list Row) :=
  match diag_selecionado with
  | [] => None
  | _ :: _ =>
    Some (filter (fun r => Pd.cell_eqb (diagnostico r) (Some diag_selecionado))
                 view)
  end.

(** ** dashboard5.py, where it differs *)

(** Lines 23 and 24 of [dashboard5.py] on one cell: the exact text
    [.NÃO DEFINIDO.] is replaced by NaN, then the texts are stripped. *)
Definition limpar_diagnostico5 (c : cell) : cell :=
  Pd.str_strip (Pd.replace_value (py ".NÃO DEFINIDO.") c).

(** Line 97 of [dashboard5.py]: no [dropna] before [value_counts]. *)
Definition top_diag5 (desempate : Pd.tie_order) (view : list Row) : pystr :=
  match Pd.idxmax (Pd.value_counts desempate (map diagnostico view)) with
  | Some d => d
  | None => py "N/A"
  end.

(** Line 194 of [dashboard5.py]. *)
Definition top_diagnosticos5 (desempate : Pd.tie_order) (view : list Row) :
  list (pystr * nat) :=
  firstn 10 (Pd.value_counts desempate (map diagnostico view)).

(** The placeholder as [dashboard5.py] spells it. *)
Definition marcador : pystr := py ".NÃO DEFINIDO.".

(** A text without white space at either end. *)
Definition sem_espacos_nas_pontas (s : pystr) : Prop :=
  no_space_head s /\ forall t c, s = t ++ [c] -> PyStr.isspace c = false.

(* ================================================================== *)
(** * Properties *)

(** ** Text *)

Lemma pystr_eqb_eq (a b : pystr) : PyStr.eqb a b = true <-> a = b.
Proof.
  unfold PyStr.eqb; destruct (list_eq_dec N.eq_dec a b); split; congruence.
Qed.

Lemma pystr_eqb_refl (a : pystr) : PyStr.eqb a a = true.
Proof. now apply pystr_eqb_eq. Qed.

Lemma pystr_eqb_neq (a b : pystr) : PyStr.eqb a b = false <-> a <> b.
Proof.
  unfold PyStr.eqb; destruct (list_eq_dec N.eq_dec a b); split; congruence.
Qed.

Lemma cell_eqb_eq (a b : cell) : Pd.cell_eqb a b = true <-> a = b.
Proof.
  destruct a, b; simpl; try (split; congruence).
  rewrite pystr_eqb_eq; split; congruence.
Qed.

Lemma lstrip_head s : no_space_head (PyStr.lstrip s).
Proof.
  induction s as [|c s IH]; simpl; [constructor|].
  destruct (PyStr.isspace c) eqn:E; [assumption | now constructor].
Qed.

Lemma lstrip_fixed s : no_space_head s -> PyStr.lstrip s = s.
Proof. destruct 1 as [|c s H]; simpl; [|rewrite H]; reflexivity. Qed.

Lemma rstrip_cons c s :
  PyStr.isspace c = false -> PyStr.rstrip (c :: s) = c :: PyStr.rstrip s.
Proof. intros H; simpl; rewrite H; now destruct (PyStr.rstrip s). Qed.

Lemma rstrip_head s : no_space_head s -> no_space_head (PyStr.rstrip s).
Proof.
  destruct 1 as [|c s H]; [constructor|].
  rewrite rstrip_cons by assumption; now constructor.
Qed.

Lemma rstrip_cons_keep c s :
  PyStr.rstrip s <> [] -> PyStr.rstrip (c :: s) = c :: PyStr.rstrip s.
Proof. intros H; simpl; now destruct (PyStr.rstrip s). Qed.

Lemma rstrip_idem s : PyStr.rstrip (PyStr.rstrip s) = PyStr.rstrip s.
Proof.
  induction s as [|c s IH]; [reflexivity|].
  destruct (PyStr.rstrip s) as [|d r] eqn:E.
  - simpl; rewrite E.
    destruct (PyStr.isspace c) eqn:Ec; [reflexivity|].
    simpl; now rewrite Ec.
  - rewrite (rstrip_cons_keep c s) by congruence.
    rewrite E in *.
    rewrite rstrip_cons_keep by congruence.
    now rewrite IH.
Qed.

Lemma strip_idem s : PyStr.strip (PyStr.strip s) = PyStr.strip s.
Proof.
  unfold PyStr.strip.
  rewrite (lstrip_fixed (PyStr.rstrip (PyStr.lstrip s))).
  - apply rstrip_idem.
  - apply rstrip_head, lstrip_head.
Qed.

(** [rstrip] leaves a text that does not end with white space. *)
Lemma rstrip_last s t c :
  PyStr.rstrip s = t ++ [c] -> PyStr.isspace c = false.
Proof.
  revert t; induction s as [|a s IH]; intros t H; simpl in H.
  - now destruct t.
  - destruct (PyStr.rstrip s) as [|d r] eqn:E.
    + destruct (PyStr.isspace a) eqn:Ea; [now destruct t|].
      destruct t as [|x t]; simpl in H.
      * now injection H as <-.
      * injection H as _ H; now destruct t.
    + destruct t as [|x t]; simpl in H.
      * discriminate.
      * injection H as _ H. now apply (IH t).
Qed.

Lemma strip_last s t c :
  PyStr.strip s = t ++ [c] -> PyStr.isspace c = false.
Proof. apply rstrip_last. Qed.

(** ** The matcher against the language of a pattern *)

Section ReFacts.
Import Re.

Lemma nullable_spec r : nullable r = true <-> Matches r [].
Proof.
  induction r as [| |p|a IHa b IHb|a IHa b IHb|a IHa]; simpl.
  - split; [discriminate | inversion 1].
  - split; [constructor | reflexivity].
  - split; [discriminate | inversion 1].
  - rewrite andb_true_iff, IHa, IHb. split.
    + intros [Ha Hb]. apply (MCat a b [] []); assumption.
    + inversion 1 as [| |a' b' s1 s2 H1 H2 [E1 E2] E3| | | |]; subst.
      apply app_eq_nil in E3 as [-> ->]. now split.
  - rewrite orb_true_iff, IHa, IHb. split.
    + intros [H|H]; [now apply MAltL | now apply MAltR].
    + inversion 1; subst; [now left | now right].
  - split; [constructor | reflexivity].
Qed.

(** A non-empty match of a star starts with a non-empty match of its
    body. *)
Lemma star_cons a c s :
  Matches (Star a) (c :: s) ->
  exists s1 s2, s = s1 ++ s2 /\ Matches a (c :: s1) /\ Matches (Star a) s2.
Proof.
  intros H. remember (Star a) as r eqn:Er. remember (c :: s) as w eqn:Ew.
  revert a c s Er Ew.
  induction H as [|p x Hx|a' b' w1 w2 _ _ _ _|a' b' w Hw _|a' b' w Hw _
                 |a'|a' w1 w2 H1 _ H2 IH2];
    intros a0 c0 s0 Er Ew; try discriminate.
  injection Er as ->.
  destruct w1 as [|x w1]; simpl in Ew.
  - now apply IH2.
  - injection Ew as -> <-.
    exists w1, w2. now repeat split.
Qed.

Lemma deriv_spec c r s : Matches (deriv c r) s <-> Matches r (c :: s).
Proof.
  revert s.
  induction r as [| |p|a IHa b IHb|a IHa b IHb|a IHa]; intros s; simpl.
  - split; inversion 1.
  - split; inversion 1.
  - destruct (p c) eqn:E.
    + split.
      * inversion 1; subst. now constructor.
      * inversion 1; subst. constructor.
    + split; [inversion 1|]. inversion 1; subst. congruence.
  - assert (Hcat : Matches (Cat (deriv c a) b) s ->
                   Matches (Cat a b) (c :: s)).
    { inversion 1 as [| |a' b' s1 s2 H1 H2| | | |]; subst.
      apply IHa in H1. apply (MCat a b (c :: s1) s2 H1 H2). }
    assert (Hinv : Matches (Cat a b) (c :: s) ->
                   Matches (Cat (deriv c a) b) s
                   \/ (Matches a [] /\ Matches b (c :: s))).
    { inversion 1 as [| |a' b' s1 s2 H1 H2 [E1 E2] E3| | | |]; subst.
      destruct s1 as [|x s1]; simpl in E3.
      - right. subst. now split.
      - injection E3 as -> <-. left. constructor; [now apply IHa | assumption]. }
    destruct (nullable a) eqn:En.
    + split.
      * inversion 1; subst; [now apply Hcat|].
        apply (MCat a b [] (c :: s)); [now apply nullable_spec | now apply IHb].
      * intros H. destruct (Hinv H) as [H'|[_ H']].
        -- now apply MAltL.
        -- apply MAltR. now apply IHb.
    + split; [exact Hcat|].
      intros H. destruct (Hinv H) as [H'|[H' _]]; [assumption|].
      apply nullable_spec in H'. congruence.
  - split.
    + inversion 1; subst; [apply MAltL; now apply IHa | apply MAltR; now apply IHb].
    + inversion 1; subst; [apply MAltL; now apply IHa | apply MAltR; now apply IHb].
  - split.
    + inversion 1 as [| |a' b' s1 s2 H1 H2| | | |]; subst.
      apply IHa in H1. apply (MStarS a (c :: s1) s2 H1 H2).
    + intros H. apply star_cons in H as (s1 & s2 & -> & H1 & H2).
      constructor; [now apply IHa | assumption].
Qed.

Lemma match_here_spec fin r s :
  match_here fin r s = true <->
  exists s1 s2, s = s1 ++ s2 /\ Matches r s1 /\ fin s2 = true.
Proof.
  revert r; induction s as [|c s IH]; intros r; simpl.
  - rewrite orb_false_r, andb_true_iff, nullable_spec. split.
    + intros [H1 H2]. exists [], []. now repeat split.
    + intros (s1 & s2 & E & H1 & H2).
      symmetry in E. apply app_eq_nil in E as [-> ->]. now split.
  - rewrite orb_true_iff, andb_true_iff, nullable_spec, IH. split.
    + intros [[H1 H2]|(s1 & s2 & -> & H1 & H2)].
      * exists [], (c :: s). now repeat split.
      * exists (c :: s1), s2. repeat split; [now apply deriv_spec | assumption].
    + intros (s1 & s2 & E & H1 & H2). destruct s1 as [|x s1]; simpl in E.
      * left. subst. now split.
      * injection E as <- ->. right. exists s1, s2.
        repeat split; [now apply deriv_spec | assumption].
Qed.

Lemma at_end_spec rest :
  at_end true rest = true <-> rest = [] \/ rest = [10%N].
Proof.
  destruct rest as [|c [|d rest]]; simpl.
  - split; [now left | reflexivity].
  - rewrite N.eqb_eq. split; [intros ->; now right | intros [H|H]; congruence].
  - split; [discriminate | intros [H|H]; discriminate].
Qed.

(** Searching with a pattern anchored at both ends: the whole text
    matches, or the text is a match followed by one newline. *)
Lemma search_anchored r s :
  search {| bol := true; body := r; eol := true |} s = true <->
  Matches r s \/ exists t, s = t ++ [10%N] /\ Matches r t.
Proof.
  unfold search; simpl. rewrite match_here_spec. split.
  - intros (s1 & s2 & -> & H1 & H2). apply at_end_spec in H2 as [->| ->].
    + left. now rewrite app_nil_r.
    + right. now exists s1.
  - intros [H|(t & -> & H)].
    + exists s, []. rewrite app_nil_r. now repeat split.
    + exists t, [10%N]. now repeat split.
Qed.

Lemma matches_chr c s : Matches (Chr c) s <-> s = [c].
Proof.
  split.
  - inversion 1 as [|p x Hx| | | | |]; subst. apply N.eqb_eq in Hx. now subst.
  - intros ->. constructor. apply N.eqb_refl.
Qed.

Lemma matches_opt r s : Matches (Opt r) s <-> Matches r s \/ s = [].
Proof.
  split.
  - inversion 1 as [| | |a b s' H'|a b s' H'| |]; subst; [now left|].
    inversion H'; now right.
  - intros [H| ->]; [now apply MAltL | apply MAltR; constructor].
Qed.

Lemma matches_lit t s : Matches (Lit t) s <-> s = t.
Proof.
  revert s; induction t as [|c t IH]; intros s; simpl.
  - split; [now inversion 1 | intros ->; constructor].
  - split.
    + inversion 1 as [| |a b s1 s2 H1 H2| | | |]; subst.
      apply matches_chr in H1. apply IH in H2. now subst.
    + intros ->. apply (MCat _ _ [c] t); [now apply matches_chr | now apply IH].
Qed.

Lemma matches_star_cls p s :
  Matches (Star (Cls p)) s <-> forallb p s = true.
Proof.
  split.
  - intros H. remember (Star (Cls p)) as r eqn:Er.
    induction H as [| | | | | |a s1 s2 H1 _ H2 IH2]; try discriminate.
    + reflexivity.
    + injection Er as ->. inversion H1; subst. simpl.
      rewrite IH2 by reflexivity. now rewrite H0.
  - induction s as [|c s IH]; simpl; [constructor|].
    rewrite andb_true_iff. intros [Hc Hs].
    apply (MStarS (Cls p) [c] s); [now constructor | now apply IH].
Qed.

Lemma matches_plus_cls p s :
  Matches (Plus (Cls p)) s <-> s <> [] /\ forallb p s = true.
Proof.
  unfold Plus. split.
  - inversion 1 as [| |a b s1 s2 H1 H2| | | |]; subst.
    inversion H1; subst. apply matches_star_cls in H2. simpl.
    split; [discriminate | now rewrite H3, H2].
  - intros [Hne H]. destruct s as [|c s]; [congruence|].
    simpl in H. apply andb_true_iff in H as [Hc Hs].
    apply (MCat _ _ [c] s); [now constructor | now apply matches_star_cls].
Qed.

Lemma matches_cat a b s :
  Matches (Cat a b) s <->
  exists s1 s2, s = s1 ++ s2 /\ Matches a s1 /\ Matches b s2.
Proof.
  split.
  - inversion 1; subst. eauto.
  - intros (s1 & s2 & -> & H1 & H2). now constructor.
Qed.

End ReFacts.

(** ** Cleaning of [diagnostico] *)

Lemma matches_cls p s :
  Re.Matches (Re.Cls p) s <-> exists c, s = [c] /\ p c = true.
Proof.
  split.
  - inversion 1; subst; eauto.
  - intros (c & -> & H). now constructor.
Qed.

Lemma NAO_DEFINIDO_body s :
  Re.Matches (Re.body NAO_DEFINIDO) s <-> nao_definido s.
Proof.
  unfold nao_definido; cbv [NAO_DEFINIDO Re.body]. split.
  - intros H.
    apply matches_cat in H as (p & s1 & -> & Hp & H).
    apply matches_cat in H as (n & s2 & -> & Hn & H).
    apply matches_cat in H as (a & s3 & -> & Ha & H).
    apply matches_cat in H as (o & s4 & -> & Ho & H).
    apply matches_cat in H as (w & s5 & -> & Hw & H).
    apply matches_cat in H as (d & q & -> & Hd & Hq).
    apply matches_chr in Hn as ->. apply matches_chr in Ho as ->.
    apply matches_lit in Hd as ->.
    apply matches_cls in Ha as (a' & -> & Ha).
    apply matches_plus_cls in Hw as [Hw1 Hw2].
    exists p, a', w, q. repeat split; try assumption.
    + apply matches_opt in Hp as [Hp|Hp]; [apply matches_chr in Hp|]; auto.
    + apply orb_true_iff in Ha as [Ha|Ha]; apply N.eqb_eq in Ha; auto.
    + apply matches_opt in Hq as [Hq|Hq]; [apply matches_chr in Hq|]; auto.
  - intros (p & a & w & q & -> & Hp & Ha & Hw1 & Hw2 & Hq).
    repeat (apply Re.MCat).
    + apply matches_opt. destruct Hp as [->| ->]; [now right | left].
      now apply matches_chr.
    + now apply matches_chr.
    + constructor. destruct Ha as [->| ->]; reflexivity.
    + now apply matches_chr.
    + now apply matches_plus_cls.
    + now apply matches_lit.
    + apply matches_opt. destruct Hq as [->| ->]; [now right | left].
      now apply matches_chr.
Qed.

(** On a stripped text the search of line 28 decides the placeholder. *)
Lemma search_NAO_DEFINIDO s :
  Re.search NAO_DEFINIDO (PyStr.strip s) = true <-> nao_definido (PyStr.strip s).
Proof.
  change NAO_DEFINIDO with
    {| Re.bol := true; Re.body := Re.body NAO_DEFINIDO; Re.eol := true |}.
  rewrite search_anchored, NAO_DEFINIDO_body. split; [|now left].
  intros [H|(t & E & _)]; [assumption|].
  apply strip_last in E. discriminate.
Qed.

Lemma limpar_diagnostico_cases c :
  let s := PyStr.strip (Pd.astype_str c) in
  (limpar_diagnostico c = None <-> nao_definido s \/ s = py "nan")
  /\ (limpar_diagnostico c = None \/ limpar_diagnostico c = Some s).
Proof.
  intros s. unfold limpar_diagnostico; simpl. fold s.
  destruct (Re.search NAO_DEFINIDO s) eqn:E; simpl.
  - apply search_NAO_DEFINIDO in E. split; [|now left]. split; auto.
  - destruct (PyStr.eqb s (py "nan")) eqn:En.
    + apply pystr_eqb_eq in En. split; [|now left]. split; auto.
    + apply pystr_eqb_neq in En. split; [|now right].
      split; [discriminate|]. intros [H|H]; [|contradiction].
      apply search_NAO_DEFINIDO in H. unfold s in E. congruence.
Qed.

Lemma carregar_dados_diagnostico to_datetime csv r :
  In r (carregar_dados to_datetime csv) ->
  exists rr, In rr csv /\ diagnostico r = limpar_diagnostico (raw_diagnostico rr).
Proof.
  unfold carregar_dados. intros H.
  apply in_map_iff in H as (r1 & <- & H).
  apply filter_In in H as [H _].
  apply in_map_iff in H as (rr & <- & H).
  now exists rr.
Qed.

Lemma limpar_diagnostico_nan : limpar_diagnostico None = None.
Proof. reflexivity. Qed.

(** C1 (amended): for every input table each row of the Dataset carries the
    diagnosis of its source line cast to text, stripped, and replaced by
    null when the whole text is the placeholder of line 28 -- optional
    period, [NAO] or [NÃO], white space, [DEFINIDO], optional period, all
    in upper case, the pattern being compiled without IGNORECASE -- or the
    text [nan]; otherwise the stripped text is kept.  Such a placeholder
    never remains as text in the Dataset.  [.NÃO DEFINIDO.] and
    [NAO DEFINIDO] clean to null; the lower-case [não definido.] is kept
    as text. *)
Theorem C1_limpar_diagnostico :
  forall (to_datetime : cell -> option Timestamp) (csv : list RawRow),
    Forall (fun r =>
              (exists rr, In rr csv
                 /\ diagnostico r = limpar_diagnostico (raw_diagnostico rr))
              /\ (forall s, diagnostico r = Some s ->
                    ~ nao_definido s /\ s <> py "nan"))
           (carregar_dados to_datetime csv)
    /\ (forall c : cell,
          let s := PyStr.strip (Pd.astype_str c) in
          (limpar_diagnostico c = None <-> nao_definido s \/ s = py "nan")
          /\ (limpar_diagnostico c = None \/ limpar_diagnostico c = Some s))
    /\ limpar_diagnostico (Some (py ".NÃO DEFINIDO.")) = None
    /\ limpar_diagnostico (Some (py "NAO DEFINIDO")) = None
    /\ limpar_diagnostico (Some (py "não definido."))
       = Some (py "não definido.").
Proof.
  intros to_datetime csv. split; [|split; [|repeat split]].
  - apply Forall_forall. intros r Hr.
    destruct (carregar_dados_diagnostico _ _ _ Hr) as (rr & Hin & E).
    split; [now exists rr|].
    intros s Hs. rewrite E in Hs.
    destruct (limpar_diagnostico_cases (raw_diagnostico rr)) as [Hnone Hcase].
    cbv zeta in Hnone, Hcase.
    destruct Hcase as [Hc|Hc]; [congruence|].
    assert (s = PyStr.strip (Pd.astype_str (raw_diagnostico rr))) as -> by congruence.
    split; intros H; [assert (limpar_diagnostico (raw_diagnostico rr) = None)
                     | assert (limpar_diagnostico (raw_diagnostico rr) = None)];
      try congruence; apply Hnone; auto.
  - intros c. apply limpar_diagnostico_cases.
Qed.

(** C1 as stated fails: the pattern is case-sensitive, so the lower-case
    spelling of the placeholder is not replaced by null. *)
Lemma C1_lower_case_kept :
  limpar_diagnostico (Some (py "não definido.")) <> None.
Proof. vm_compute. discriminate. Qed.

(** C9: cleaning a cleaned diagnosis, null included, changes nothing. *)
Theorem C9_limpar_diagnostico_idempotent :
  forall c : cell,
    limpar_diagnostico (limpar_diagnostico c) = limpar_diagnostico c.
Proof.
  intros c.
  assert (step : limpar_diagnostico c
                 = Pd.replace_value (py "nan")
                     (Pd.replace_regex NAO_DEFINIDO
                        (Some (PyStr.strip (Pd.astype_str c))))) by reflexivity.
  rewrite step.
  set (s := PyStr.strip (Pd.astype_str c)).
  cbv [Pd.replace_regex].
  destruct (Re.search NAO_DEFINIDO s) eqn:E; [reflexivity|].
  cbv [Pd.replace_value].
  destruct (PyStr.eqb s (py "nan")) eqn:En; [reflexivity|].
  cbv [limpar_diagnostico Pd.str_strip option_map Pd.astype_str Pd.replace_regex].
  unfold s at 1 2 3. rewrite strip_idem. fold s. rewrite E.
  cbv [Pd.replace_value]. now rewrite En.
Qed.

(** ** Rows kept by the loader *)

Lemma carregar_dados_In to_datetime csv r :
  In r (carregar_dados to_datetime csv) <->
  exists rr, In rr csv /\ r = linha to_datetime rr
             /\ idade_valida (tratar to_datetime rr) = true.
Proof.
  unfold carregar_dados, linha. rewrite in_map_iff. split.
  - intros (r1 & <- & H). apply filter_In in H as [H Hv].
    apply in_map_iff in H as (rr & <- & H). now exists rr.
  - intros (rr & Hin & -> & Hv). exists (tratar to_datetime rr).
    split; [reflexivity|]. apply filter_In. split; [|assumption].
    now apply in_map.
Qed.

Lemma idade_valida_spec to_datetime rr :
  idade_valida (tratar to_datetime rr) = true <->
  exists n e,
    to_datetime (raw_dataNascimento rr) = Some n
    /\ to_datetime (raw_dataEntrada rr) = Some e
    /\ 0 <= days (e - n) / 365 < 120.
Proof.
  unfold idade_valida, tratar, idade; simpl.
  destruct (to_datetime (raw_dataEntrada rr)) as [e|];
    destruct (to_datetime (raw_dataNascimento rr)) as [n|].
  - rewrite andb_true_iff, Z.leb_le, Z.ltb_lt. split.
    + intros H. now exists n, e.
    + intros (n' & e' & [= <-] & [= <-] & H). exact H.
  - split; [discriminate | intros (n' & e' & H & _); discriminate].
  - split; [discriminate | intros (n' & e' & _ & H & _); discriminate].
  - split; [discriminate | intros (n' & e' & H & _); discriminate].
Qed.

Lemma linha_idade to_datetime rr :
  idade_no_atendimento (linha to_datetime rr)
  = idade (to_datetime (raw_dataEntrada rr)) (to_datetime (raw_dataNascimento rr)).
Proof. reflexivity. Qed.

Lemma linha_valida_eq to_datetime rr rr' :
  linha to_datetime rr = linha to_datetime rr' ->
  idade_valida (tratar to_datetime rr) = idade_valida (tratar to_datetime rr').
Proof.
  intros E. unfold idade_valida.
  change (idade_no_atendimento (tratar to_datetime rr))
    with (idade_no_atendimento (linha to_datetime rr)).
  change (idade_no_atendimento (tratar to_datetime rr'))
    with (idade_no_atendimento (linha to_datetime rr')).
  now rewrite E.
Qed.

Lemma carregar_dados_idade to_datetime csv r :
  In r (carregar_dados to_datetime csv) ->
  exists a n e,
    dataNascimento r = Some n /\ dataEntrada r = Some e
    /\ idade_no_atendimento r = Some a
    /\ a = days (e - n) / 365 /\ 0 <= a < 120.
Proof.
  intros H. apply carregar_dados_In in H as (rr & _ & -> & Hv).
  apply idade_valida_spec in Hv as (n & e & Hn & He & Hr).
  exists (days (e - n) / 365), n, e.
  rewrite linha_idade. unfold linha; simpl. rewrite Hn, He. now repeat split.
Qed.

Lemma df_filtered_In df cidades data_inicio data_fim r :
  In r (df_filtered df cidades data_inicio data_fim) <->
  In r df /\ In (cidade r) cidades
  /\ exists t, dataEntrada r = Some t /\ data_inicio <= date t <= data_fim.
Proof.
  unfold df_filtered, no_filtro, Pd.isin.
  rewrite filter_In, andb_true_iff, existsb_exists. split.
  - intros (Hin & (c & Hc & E) & Hd). apply cell_eqb_eq in E as <-.
    repeat split; try assumption.
    destruct (dataEntrada r) as [t|]; [|discriminate].
    apply andb_true_iff in Hd as [H1 H2]. exists t. split; [reflexivity|]. lia.
  - intros (Hin & Hc & t & -> & Hd). repeat split; try assumption.
    + exists (cidade r). split; [assumption | now apply cell_eqb_eq].
    + apply andb_true_iff. split; lia.
Qed.

Lemma filter_map {A B} (f : B -> bool) (g : A -> B) l :
  filter f (map g l) = map g (filter (fun x => f (g x)) l).
Proof.
  induction l as [|x l IH]; simpl; [reflexivity|].
  destruct (f (g x)); simpl; now rewrite IH.
Qed.

Lemma carregar_dados_eq to_datetime csv :
  carregar_dados to_datetime csv
  = map (linha to_datetime)
        (filter (fun rr => idade_valida (tratar to_datetime rr)) csv).
Proof.
  unfold carregar_dados, linha. now rewrite filter_map, map_map.
Qed.

(** C2: a line of the input table has its row in the Dataset exactly when
    both of its dates parse and the age at the visit, the whole days
    between birth and visit floor-divided by 365, is at least 0 and
    below 120; the Dataset is made of the rows of those lines, in their
    order, and of nothing else, so every row of the Dataset and of every
    filtered view has an age in that range. *)
Theorem C2_carregar_dados_rows :
  forall (to_datetime : cell -> option Timestamp) (csv : list RawRow),
    (forall rr, In rr csv ->
       (In (linha to_datetime rr) (carregar_dados to_datetime csv) <->
        exists n e,
          to_datetime (raw_dataNascimento rr) = Some n
          /\ to_datetime (raw_dataEntrada rr) = Some e
          /\ 0 <= days (e - n) / 365 < 120))
    /\ (exists keep : RawRow -> bool,
          carregar_dados to_datetime csv
          = map (linha to_datetime) (filter keep csv)
          /\ forall rr, keep rr = true <->
               exists n e,
                 to_datetime (raw_dataNascimento rr) = Some n
                 /\ to_datetime (raw_dataEntrada rr) = Some e
                 /\ 0 <= days (e - n) / 365 < 120)
    /\ (forall r,
          In r (carregar_dados to_datetime csv) ->
          exists a n e,
            dataNascimento r = Some n /\ dataEntrada r = Some e
            /\ idade_no_atendimento r = Some a
            /\ a = days (e - n) / 365 /\ 0 <= a < 120)
    /\ (forall cidades data_inicio data_fim r,
          In r (df_filtered (carregar_dados to_datetime csv)
                            cidades data_inicio data_fim) ->
          exists a n e,
            dataNascimento r = Some n /\ dataEntrada r = Some e
            /\ idade_no_atendimento r = Some a
            /\ a = days (e - n) / 365 /\ 0 <= a < 120).
Proof.
  intros to_datetime csv. split; [|split; [|split]].
  - intros rr Hin. split.
    + intros H. apply carregar_dados_In in H as (rr' & _ & E & Hv).
      apply idade_valida_spec. now rewrite (linha_valida_eq _ _ _ E).
    + intros H. apply carregar_dados_In. exists rr.
      repeat split; [assumption|]. now apply idade_valida_spec.
  - exists (fun rr => idade_valida (tratar to_datetime rr)).
    split; [apply carregar_dados_eq|]. intros rr. apply idade_valida_spec.
  - intros r H. now apply (carregar_dados_idade to_datetime csv).
  - intros cidades data_inicio data_fim r H.
    apply df_filtered_In in H as [H _].
    now apply (carregar_dados_idade to_datetime csv).
Qed.

(** ** Age bands *)

Lemma cut_faixa_de a :
  0 <= a < 120 -> Pd.cut bins labels (Some a) = Some (faixa_de a).
Proof.
  intros Ha. unfold Pd.cut, bins, faixa_de. cbn [Pd.searchsorted_right].
  repeat match goal with
         | |- context [Z.leb ?x a] => destruct (Z.leb_spec x a)
         | |- context [Z.ltb a ?x] => destruct (Z.ltb_spec a x)
         end; try lia; reflexivity.
Qed.

Lemma faixa_de_label a : In (faixa_de a) labels.
Proof.
  unfold faixa_de, labels.
  repeat match goal with
         | |- context [Z.ltb a ?x] => destruct (Z.ltb_spec a x)
         end; simpl; tauto.
Qed.

Lemma labels_distinct : NoDup labels.
Proof.
  unfold labels.
  repeat (constructor; [simpl; intros H;
                        repeat (destruct H as [H|H]; [discriminate|]);
                        exact H|]).
  constructor.
Qed.

(** C3: the age band of a Dataset row is [pd.cut] of its age alone, over
    the edges 0, 2, 12, 19, 59, 120 with the left edge included and the
    right edge excluded, so each age from 0 to 119 gets the one label of
    the interval that holds it, out of five distinct labels; age 2 is
    [Criança (3-12)] and age 19 is [Adulto (20-59)]. *)
Theorem C3_faixa_etaria :
  (forall (to_datetime : cell -> option Timestamp) (csv : list RawRow),
     Forall (fun r => faixa_etaria r
                      = Pd.cut bins labels (idade_no_atendimento r))
            (carregar_dados to_datetime csv))
  /\ (forall a, 0 <= a < 120 ->
        Pd.cut bins labels (Some a) = Some (faixa_de a)
        /\ In (faixa_de a) labels)
  /\ NoDup labels
  /\ Pd.cut bins labels (Some 2) = Some (py "Criança (3-12)")
  /\ Pd.cut bins labels (Some 19) = Some (py "Adulto (20-59)").
Proof.
  split; [|split; [|split; [|split]]].
  - intros to_datetime csv. apply Forall_forall. intros r H.
    apply carregar_dados_In in H as (rr & _ & -> & _). reflexivity.
  - intros a Ha. split; [now apply cut_faixa_de | apply faixa_de_label].
  - exact labels_distinct.
  - reflexivity.
  - reflexivity.
Qed.

(** ** The sidebar filter *)

Lemma NS_PER_DAY_pos : 0 < NS_PER_DAY.
Proof. reflexivity. Qed.

Lemma date_time_of_day d tod :
  0 <= tod < NS_PER_DAY -> date (d * NS_PER_DAY + tod) = d.
Proof.
  intros H. unfold date. pose proof NS_PER_DAY_pos.
  rewrite Z.add_comm, Z.div_add by lia. rewrite Z.div_small by assumption. lia.
Qed.

Lemma date_mono t1 t2 : t1 <= t2 -> date t1 <= date t2.
Proof. intros H. apply Z.div_le_mono; [exact NS_PER_DAY_pos | assumption]. Qed.

Lemma no_filtro_spec cidades data_inicio data_fim r :
  no_filtro cidades data_inicio data_fim r = true <->
  In (cidade r) cidades
  /\ exists t, dataEntrada r = Some t /\ data_inicio <= date t <= data_fim.
Proof.
  pose proof (df_filtered_In [r] cidades data_inicio data_fim r) as H.
  unfold df_filtered in H. rewrite filter_In in H. simpl in H. tauto.
Qed.

(** C4: [df_filtered] keeps, in their order, exactly the rows whose city
    is one of the chosen values and whose visit day -- the timestamp
    without its time of day -- is at least the start day and at most the
    end day. *)
Theorem C4_df_filtered :
  forall (df : list Row) (cidades : list cell) (data_inicio data_fim : Z),
    (forall r,
       In r (df_filtered df cidades data_inicio data_fim) <->
       In r df /\ In (cidade r) cidades
       /\ exists t, dataEntrada r = Some t
                    /\ data_inicio <= date t <= data_fim)
    /\ (exists keep : Row -> bool,
          df_filtered df cidades data_inicio data_fim = filter keep df
          /\ forall r, keep r = true <->
               In (cidade r) cidades
               /\ exists t, dataEntrada r = Some t
                            /\ data_inicio <= date t <= data_fim)
    /\ (forall d tod, 0 <= tod < NS_PER_DAY -> date (d * NS_PER_DAY + tod) = d).
Proof.
  intros df cidades data_inicio data_fim. split; [|split].
  - intros r. apply df_filtered_In.
  - exists (no_filtro cidades data_inicio data_fim).
    split; [reflexivity|]. intros r. apply no_filtro_spec.
  - apply date_time_of_day.
Qed.

(** ** The default filter *)

Lemma unique_from_In seen col c :
  In c col -> Pd.isin c seen = true \/ In c (Pd.unique_from seen col).
Proof.
  revert seen; induction col as [|x col IH]; intros seen H; [contradiction|].
  simpl. destruct H as [->|H].
  - destruct (Pd.isin c seen) eqn:E; [now left | right; now left].
  - destruct (Pd.isin x seen) eqn:E.
    + now apply IH.
    + destruct (IH (x :: seen) H) as [Hs|Hs]; [|right; now right].
      simpl in Hs. apply orb_true_iff in Hs as [Hs|Hs]; [|now left].
      apply cell_eqb_eq in Hs as ->. right; now left.
Qed.

Lemma unique_In col c : In c col -> In c (Pd.unique col).
Proof.
  intros H. destruct (unique_from_In [] col c H) as [E|E];
    [discriminate | assumption].
Qed.

Lemma fold_min_le l x : fold_left Z.min l x <= x
                        /\ forall y, In y l -> fold_left Z.min l x <= y.
Proof.
  revert x; induction l as [|a l IH]; intros x; simpl.
  - split; [lia | contradiction].
  - destruct (IH (Z.min x a)) as [H1 H2]. split; [lia|].
    intros y [<-|Hy]; [lia | now apply H2].
Qed.

Lemma fold_max_ge l x : x <= fold_left Z.max l x
                        /\ forall y, In y l -> y <= fold_left Z.max l x.
Proof.
  revert x; induction l as [|a l IH]; intros x; simpl.
  - split; [lia | contradiction].
  - destruct (IH (Z.max x a)) as [H1 H2]. split; [lia|].
    intros y [<-|Hy]; [lia | now apply H2].
Qed.

Lemma fold_min_In l x : In (fold_left Z.min l x) (x :: l).
Proof.
  revert x; induction l as [|a l IH]; intros x; simpl; [now left|].
  destruct (IH (Z.min x a)) as [H|H]; [|right; now right].
  rewrite <- H. destruct (Z.min_spec x a) as [[_ ->]|[_ ->]]; auto.
Qed.

Lemma fold_max_In l x : In (fold_left Z.max l x) (x :: l).
Proof.
  revert x; induction l as [|a l IH]; intros x; simpl; [now left|].
  destruct (IH (Z.max x a)) as [H|H]; [|right; now right].
  rewrite <- H. destruct (Z.max_spec x a) as [[_ ->]|[_ ->]]; auto.
Qed.

Lemma col_min_spec l :
  l <> [] ->
  exists lo, col_min l = Some lo /\ In lo l /\ forall y, In y l -> lo <= y.
Proof.
  destruct l as [|x l]; [congruence|]. intros _.
  exists (fold_left Z.min l x). split; [reflexivity|].
  split; [apply fold_min_In|].
  destruct (fold_min_le l x) as [H1 H2]. intros y [<-|Hy]; auto.
Qed.

Lemma col_max_spec l :
  l <> [] ->
  exists hi, col_max l = Some hi /\ In hi l /\ forall y, In y l -> y <= hi.
Proof.
  destruct l as [|x l]; [congruence|]. intros _.
  exists (fold_left Z.max l x). split; [reflexivity|].
  split; [apply fold_max_In|].
  destruct (fold_max_ge l x) as [H1 H2]. intros y [<-|Hy]; auto.
Qed.

Lemma entradas_In view t :
  In t (entradas view) <-> exists r, In r view /\ dataEntrada r = Some t.
Proof.
  induction view as [|r view IH]; simpl.
  - split; [contradiction | intros (r & [] & _)].
  - destruct (dataEntrada r) as [t0|] eqn:E; simpl; rewrite IH; split.
    + intros [<-|(r' & H1 & H2)]; [exists r; auto | exists r'; auto].
    + intros (r' & [<-|H1] & H2); [left; congruence | right; eauto].
    + intros (r' & H1 & H2); eauto.
    + intros (r' & [<-|H1] & H2); [congruence | eauto].
Qed.

Lemma filter_all {A} (f : A -> bool) l :
  (forall x, In x l -> f x = true) -> filter f l = l.
Proof.
  induction l as [|a l IH]; intros H; simpl; [reflexivity|].
  rewrite (H a) by now left. f_equal. apply IH. intros x Hx. apply H. now right.
Qed.

(** C10: on a loaded Dataset the default criteria -- every distinct city
    of the Dataset, from the day of the earliest visit to the day of the
    latest -- keep every row; the two days are undefined only when the
    Dataset has no row at all. *)
Theorem C10_default_filter_identity :
  forall (to_datetime : cell -> option Timestamp) (csv : list RawRow),
    let df := carregar_dados to_datetime csv in
    match min_date df, max_date df with
    | Some data_inicio, Some data_fim =>
      df_filtered df (cidades_default df) data_inicio data_fim = df
    | _, _ => df = []
    end.
Proof.
  intros to_datetime csv df.
  assert (Hrow : forall r, In r df -> exists e, dataEntrada r = Some e).
  { intros r Hr.
    apply (carregar_dados_idade to_datetime csv) in Hr
      as (a & n & e & _ & He & _).
    now exists e. }
  destruct df as [|r0 df'] eqn:Edf.
  - reflexivity.
  - assert (Hts : entradas (r0 :: df') <> []).
    { destruct (Hrow r0 (or_introl eq_refl)) as (e & He).
      simpl. rewrite He. discriminate. }
    destruct (col_min_spec _ Hts) as (lo & Elo & _ & Hlo).
    destruct (col_max_spec _ Hts) as (hi & Ehi & _ & Hhi).
    unfold min_date, max_date. rewrite Elo, Ehi. simpl option_map. cbv iota.
    apply filter_all. intros r Hr. apply no_filtro_spec. split.
    + apply unique_In. now apply in_map.
    + destruct (Hrow r Hr) as (e & He). exists e. split; [assumption|].
      assert (In e (entradas (r0 :: df'))) by (apply entradas_In; eauto).
      split; apply date_mono; auto.
Qed.

(** ** Counting and ranking diagnoses *)

Lemma values_In col k : In k (Pd.values col) <-> In (Some k) col.
Proof.
  induction col as [|[x|] col IH]; simpl.
  - tauto.
  - rewrite IH. split; intros [H|H]; auto; left; congruence.
  - rewrite IH. split; [auto | intros [H|H]; [discriminate | assumption]].
Qed.

Lemma values_dropna col : Pd.values (Pd.dropna col) = Pd.values col.
Proof.
  induction col as [|[x|] col IH]; simpl; [reflexivity | now rewrite IH | assumption].
Qed.

Lemma values_df_clean_diag view :
  Pd.values (map diagnostico (df_clean_diag view))
  = Pd.values (map diagnostico view).
Proof.
  unfold df_clean_diag.
  induction view as [|r view IH]; simpl; [reflexivity|].
  destruct (diagnostico r) as [d|] eqn:E; simpl; rewrite ?E; [now rewrite IH | assumption].
Qed.

Lemma count_pos k l : (0 < Pd.count k l)%nat <-> In k l.
Proof.
  induction l as [|x l IH]; simpl; [lia|].
  destruct (PyStr.eqb x k) eqn:E.
  - apply pystr_eqb_eq in E. split; [now left | lia].
  - apply pystr_eqb_neq in E. rewrite Nat.add_0_l, IH.
    split; [now right | intros [H|H]; [contradiction | assumption]].
Qed.

Lemma existsb_eqb_In x seen :
  existsb (PyStr.eqb x) seen = true <-> In x seen.
Proof.
  rewrite existsb_exists. split.
  - intros (y & Hy & E). apply pystr_eqb_eq in E. now subst.
  - intros H. exists x. split; [assumption | apply pystr_eqb_refl].
Qed.

Lemma keys_from_In seen l k :
  In k (Pd.keys_from seen l) <-> In k l /\ ~ In k seen.
Proof.
  revert seen; induction l as [|x l IH]; intros seen; simpl; [tauto|].
  destruct (existsb (PyStr.eqb x) seen) eqn:E.
  - apply existsb_eqb_In in E. rewrite IH. split.
    + intros [H1 H2]. split; [now right | assumption].
    + intros [[->|H1] H2]; [contradiction | now split].
  - assert (Hx : ~ In x seen).
    { intros H. apply existsb_eqb_In in H. congruence. }
    simpl. rewrite IH. simpl. split.
    + intros [->|[H1 H2]]; [split; [now left | assumption]|].
      split; [now right | tauto].
    + intros [[->|H1] H2]; [now left|].
      destruct (list_eq_dec N.eq_dec x k) as [->|Hn]; [now left|].
      right. split; [assumption | tauto].
Qed.

Lemma first_index_cons_neq x k l :
  x <> k -> first_index k (x :: l) = S (first_index k l).
Proof. intros H. simpl. apply pystr_eqb_neq in H. now rewrite H. Qed.

Lemma StronglySorted_weaken {A} (R R' : A -> A -> Prop) l :
  (forall a b, In a l -> In b l -> R a b -> R' a b) ->
  StronglySorted R l -> StronglySorted R' l.
Proof.
  induction l as [|x l IH]; intros HR H; [constructor|].
  inversion H as [|? ? Hs Hf]; subst. constructor.
  - apply IH; [|assumption]. intros a b Ha Hb. apply HR; now right.
  - rewrite Forall_forall in *. intros y Hy.
    apply HR; [now left | now right | now apply Hf].
Qed.

(** The keys come in the order of their first occurrence. *)
Lemma keys_from_sorted seen l :
  StronglySorted (fun a b => (first_index a l < first_index b l)%nat)
                 (Pd.keys_from seen l).
Proof.
  revert seen; induction l as [|x l IH]; intros seen; simpl; [constructor|].
  assert (Hw : forall seen',
             (forall k, In k (Pd.keys_from seen' l) -> x <> k) ->
             StronglySorted
               (fun a b => ((if PyStr.eqb x a then 0 else S (first_index a l))
                            < (if PyStr.eqb x b then 0 else S (first_index b l)))%nat)
               (Pd.keys_from seen' l)).
  { intros seen' Hneq.
    apply (StronglySorted_weaken
             (fun a b => (first_index a l < first_index b l)%nat));
      [|apply IH].
    intros a b Ha Hb Hab.
    apply Hneq in Ha. apply Hneq in Hb.
    apply pystr_eqb_neq in Ha, Hb. rewrite Ha, Hb. lia. }
  destruct (existsb (PyStr.eqb x) seen) eqn:E.
  - apply Hw. intros k Hk ->. apply keys_from_In in Hk as [_ Hk].
    apply existsb_eqb_In in E. contradiction.
  - constructor.
    + apply Hw. intros k Hk ->. apply keys_from_In in Hk as [_ Hk].
      apply Hk. now left.
    + apply Forall_forall. intros k Hk.
      rewrite pystr_eqb_refl.
      apply keys_from_In in Hk as [_ Hk].
      assert (x <> k) as Hn by (intros ->; apply Hk; now left).
      apply pystr_eqb_neq in Hn. rewrite Hn. lia.
Qed.

Lemma counts_In l k n :
  In (k, n) (Pd.counts l) <-> In k l /\ n = Pd.count k l.
Proof.
  unfold Pd.counts. rewrite in_map_iff. split.
  - intros (k' & [= -> <-] & H). apply keys_from_In in H as [H _]. now split.
  - intros [H ->]. exists k. split; [reflexivity|].
    apply keys_from_In. split; [assumption | tauto].
Qed.

Lemma counts_sorted l :
  StronglySorted
    (fun a b => (first_index (fst a) l < first_index (fst b) l)%nat)
    (Pd.counts l).
Proof.
  unfold Pd.counts. generalize (keys_from_sorted [] l).
  generalize (Pd.keys_from [] l) as ks.
  induction ks as [|k ks IH]; intros H; simpl; [constructor|].
  inversion H as [|? ? Hs Hf]; subst. constructor; [now apply IH|].
  rewrite Forall_forall in *. intros y Hy.
  apply in_map_iff in Hy as (k' & <- & Hk'). simpl. now apply Hf.
Qed.

Lemma insert_desc_In desempate x l y :
  In y (Pd.insert_desc desempate x l) <-> y = x \/ In y l.
Proof.
  induction l as [|z l IH]; simpl.
  - split; intros [H|H]; auto.
  - destruct ((snd z <? snd x)%nat || (snd z =? snd x)%nat && desempate x z);
      simpl; [|rewrite IH]; split; intuition auto.
Qed.

Lemma sort_values_desc_In desempate l y :
  In y (Pd.sort_values_desc desempate l) <-> In y l.
Proof.
  induction l as [|x l IH]; simpl; [tauto|].
  rewrite insert_desc_In, IH. split; intros [H|H]; auto.
Qed.

Lemma insert_desc_length desempate x l :
  List.length (Pd.insert_desc desempate x l) = S (List.length l).
Proof.
  induction l as [|z l IH]; simpl; [reflexivity|].
  destruct ((snd z <? snd x)%nat || (snd z =? snd x)%nat && desempate x z);
    simpl; [reflexivity | now rewrite IH].
Qed.

Lemma sort_values_desc_length desempate l :
  List.length (Pd.sort_values_desc desempate l) = List.length l.
Proof.
  induction l as [|x l IH]; simpl; [reflexivity|].
  now rewrite insert_desc_length, IH.
Qed.

Lemma ranked_before_le ds a b : ranked_before ds a b -> (snd b <= snd a)%nat.
Proof. unfold ranked_before. lia. Qed.

(** Whatever the order of ties, inserting an entry keeps the counts
    decreasing. *)
Lemma insert_desc_sorted desempate x l :
  StronglySorted count_desc l ->
  StronglySorted count_desc (Pd.insert_desc desempate x l).
Proof.
  unfold count_desc.
  induction l as [|z l IH]; intros Hs; simpl.
  - repeat constructor.
  - inversion Hs as [|? ? Hs' Hz]; subst.
    destruct ((snd z <? snd x)%nat || (snd z =? snd x)%nat && desempate x z)
      eqn:E.
    + assert (Hzx : (snd z <= snd x)%nat).
      { apply orb_true_iff in E as [E|E].
        - apply Nat.ltb_lt in E. lia.
        - apply andb_true_iff in E as [E _]. apply Nat.eqb_eq in E. lia. }
      constructor; [assumption|]. constructor; [assumption|].
      rewrite Forall_forall in *. intros y Hy. specialize (Hz y Hy). lia.
    + assert (Hxz : (snd x <= snd z)%nat).
      { apply orb_false_iff in E as [E _]. apply Nat.ltb_ge in E. lia. }
      constructor; [now apply IH|].
      apply Forall_forall. intros y Hy.
      rewrite insert_desc_In in Hy. destruct Hy as [->|Hy]; [assumption|].
      rewrite Forall_forall in Hz. now apply Hz.
Qed.

Lemma sort_values_desc_sorted desempate l :
  StronglySorted count_desc (Pd.sort_values_desc desempate l).
Proof.
  induction l as [|x l IH]; simpl; [constructor|].
  now apply insert_desc_sorted.
Qed.

Lemma value_counts_In desempate col k n :
  In (k, n) (Pd.value_counts desempate col) <->
  In (Some k) col /\ n = Pd.count k (Pd.values col).
Proof.
  unfold Pd.value_counts.
  now rewrite sort_values_desc_In, counts_In, values_In.
Qed.

Lemma value_counts_sorted desempate col :
  StronglySorted count_desc (Pd.value_counts desempate col).
Proof. apply sort_values_desc_sorted. Qed.

(** With ties left in order of first appearance, and only then, the table
    is ranked by count and first occurrence. *)
Lemma insert_desc_stable ds x l :
  StronglySorted (ranked_before ds) l ->
  Forall (fun y => (first_index (fst x) ds < first_index (fst y) ds)%nat) l ->
  StronglySorted (ranked_before ds) (Pd.insert_desc Pd.primeiros_primeiro x l).
Proof.
  induction l as [|z l IH]; intros Hs Hf; simpl.
  - repeat constructor.
  - inversion Hs as [|? ? Hs' Hz]; subst.
    inversion Hf as [|? ? Hfz Hf']; subst.
    unfold Pd.primeiros_primeiro at 1. rewrite andb_true_r.
    destruct ((snd z <? snd x)%nat || (snd z =? snd x)%nat) eqn:E.
    + assert (Hzx : (snd z <= snd x)%nat).
      { apply orb_true_iff in E as [E|E];
          [apply Nat.ltb_lt in E | apply Nat.eqb_eq in E]; lia. }
      constructor; [assumption|].
      constructor.
      * unfold ranked_before. lia.
      * rewrite Forall_forall in *. intros y Hy.
        pose proof (ranked_before_le _ _ _ (Hz y Hy)).
        pose proof (Hf' y Hy). unfold ranked_before. lia.
    + apply orb_false_iff in E as [E1 E2].
      apply Nat.ltb_ge in E1. apply Nat.eqb_neq in E2.
      constructor; [now apply IH|].
      apply Forall_forall. intros y Hy.
      rewrite insert_desc_In in Hy. destruct Hy as [->|Hy].
      * left. lia.
      * rewrite Forall_forall in Hz. now apply Hz.
Qed.

Lemma value_counts_stable col :
  StronglySorted (ranked_before (Pd.values col))
                 (Pd.value_counts Pd.primeiros_primeiro col).
Proof.
  unfold Pd.value_counts. generalize (counts_sorted (Pd.values col)).
  generalize (Pd.values col) as ds. intros ds.
  generalize (Pd.counts ds) as l.
  induction l as [|x l IH]; intros H; simpl; [constructor|].
  inversion H as [|? ? Hs Hf]; subst.
  apply insert_desc_stable; [now apply IH|].
  apply Forall_forall. intros y Hy. rewrite Forall_forall in Hf.
  rewrite sort_values_desc_In in Hy. now apply Hf.
Qed.

Lemma fold_best l x :
  let f := fun (best y : pystr * nat) =>
             if (snd best <? snd y)%nat then y else best in
  In (fold_left f l x) (x :: l)
  /\ forall y, In y (x :: l) -> (snd y <= snd (fold_left f l x))%nat.
Proof.
  intros f. revert x; induction l as [|z l IH]; intros x.
  - simpl. split; [now left|]. intros y [<-|[]]. lia.
  - change (fold_left f (z :: l) x) with (fold_left f l (f x z)).
    destruct (IH (f x z)) as [H1 H2]. split.
    + destruct H1 as [H1|H1]; [|right; now right].
      rewrite <- H1. unfold f. destruct (snd x <? snd z)%nat; simpl; auto.
    + assert (Hx : (snd x <= snd (f x z))%nat /\ (snd z <= snd (f x z))%nat).
      { unfold f. destruct (Nat.ltb_spec (snd x) (snd z)); lia. }
      pose proof (H2 (f x z) (or_introl eq_refl)).
      intros y [<-|[<-|Hy]]; [lia | lia |]. apply H2. now right.
Qed.

Lemma idxmax_spec l :
  match Pd.idxmax l with
  | None => l = []
  | Some k => exists n, In (k, n) l /\ forall y, In y l -> (snd y <= n)%nat
  end.
Proof.
  destruct l as [|x l]; simpl; [reflexivity|].
  destruct (fold_best l x) as [H1 H2]. cbv zeta in H1, H2.
  set (b := fold_left _ l x) in *.
  exists (snd b). split; [now rewrite <- surjective_pairing | exact H2].
Qed.

(** C5: [top_diag] is a most frequent diagnosis among the non-null ones
    of the view, whatever the order of ties; when the view is empty or has
    no non-null diagnosis the failure of [idxmax] is caught and the result
    is the text [N/A]. *)
Theorem C5_top_diag :
  forall (desempate : Pd.tie_order) (view : list Row),
    let ds := Pd.values (map diagnostico view) in
    (ds = [] -> top_diag desempate view = py "N/A")
    /\ (ds <> [] ->
        In (Some (top_diag desempate view)) (map diagnostico view)
        /\ forall d,
             (Pd.count d ds <= Pd.count (top_diag desempate view) ds)%nat)
    /\ top_diag desempate [] = py "N/A".
Proof.
  intros desempate view ds. unfold top_diag.
  assert (Evc : Pd.value_counts desempate (Pd.dropna (map diagnostico view))
                = Pd.sort_values_desc desempate (Pd.counts ds)).
  { unfold Pd.value_counts. now rewrite values_dropna. }
  assert (Hin : forall k n,
             In (k, n) (Pd.sort_values_desc desempate (Pd.counts ds)) <->
             In k ds /\ n = Pd.count k ds).
  { intros k n. now rewrite sort_values_desc_In, counts_In. }
  rewrite Evc.
  pose proof (idxmax_spec (Pd.sort_values_desc desempate (Pd.counts ds))) as H.
  split; [|split; [|reflexivity]].
  - intros E. now rewrite E.
  - intros Hne.
    destruct (Pd.idxmax _) as [k|].
    + destruct H as (n & Hk & Hmax).
      apply Hin in Hk as [Hk ->].
      split; [now apply values_In|].
      intros d. destruct (Nat.eq_dec (Pd.count d ds) 0) as [->|Hd]; [lia|].
      assert (In d ds) as Hd' by (apply count_pos; lia).
      apply (Hmax (d, Pd.count d ds)). apply Hin. now split.
    + exfalso. destruct ds as [|d ds'] eqn:Eds; [congruence|].
      assert (In (d, Pd.count d (d :: ds'))
                 (Pd.sort_values_desc desempate (Pd.counts (d :: ds')))) as Hd.
      { apply Hin. split; [now left | reflexivity]. }
      rewrite H in Hd. contradiction.
Qed.

Lemma StronglySorted_app_l {A} (R : A -> A -> Prop) l1 l2 :
  StronglySorted R (l1 ++ l2) -> StronglySorted R l1.
Proof.
  induction l1 as [|x l1 IH]; intros H; [constructor|].
  simpl in H. inversion H as [|? ? Hs Hf]; subst. constructor; [now apply IH|].
  apply Forall_app in Hf. tauto.
Qed.

(** C8 (amended): the ranking has at most ten entries; each is a non-null
    diagnosis of the rows with the number of rows that carry it; the
    entries are the head of the full table of counts, which lists every
    non-null diagnosis by decreasing count.  The order among diagnoses of
    equal count is not fixed: line 193 sorts with the default, unstable
    kind, and the statement holds for every order of ties. *)
Theorem C8_top_diagnosticos :
  forall (desempate : Pd.tie_order) (view : list Row),
    let ds := Pd.values (map diagnostico view) in
    (List.length (top_diagnosticos desempate view) <= 10)%nat
    /\ (forall k n, In (k, n) (top_diagnosticos desempate view) ->
          In (Some k) (map diagnostico view)
          /\ n = Pd.count k ds /\ (1 <= n)%nat)
    /\ StronglySorted count_desc (top_diagnosticos desempate view)
    /\ exists rest,
         (forall k, In k ds <->
                    In (k, Pd.count k ds)
                       (top_diagnosticos desempate view ++ rest))
         /\ StronglySorted count_desc (top_diagnosticos desempate view ++ rest)
         /\ (List.length (top_diagnosticos desempate view) = 10%nat
             \/ rest = []).
Proof.
  intros desempate view ds. unfold top_diagnosticos.
  set (vc := Pd.value_counts desempate (map diagnostico (df_clean_diag view))).
  assert (Hin : forall k n, In (k, n) vc <-> In k ds /\ n = Pd.count k ds).
  { intros k n. unfold vc. rewrite value_counts_In, values_df_clean_diag.
    fold ds. rewrite <- values_In, values_df_clean_diag. fold ds. tauto. }
  assert (Hs : StronglySorted count_desc vc) by apply value_counts_sorted.
  assert (Hsplit : firstn 10 vc ++ skipn 10 vc = vc) by apply firstn_skipn.
  split; [apply firstn_le_length|]. split; [|split].
  - intros k n H.
    assert (In (k, n) vc) as H' by (rewrite <- Hsplit; apply in_or_app; now left).
    apply Hin in H' as [Hk ->]. split; [now apply values_In|].
    split; [reflexivity|]. now apply count_pos.
  - apply (StronglySorted_app_l _ _ (skipn 10 vc)). now rewrite Hsplit.
  - exists (skipn 10 vc). rewrite Hsplit. split; [|split; [assumption|]].
    + intros k. rewrite Hin. tauto.
    + destruct (Nat.le_gt_cases 10 (List.length vc)) as [Hl|Hl].
      * left. now apply firstn_length_le.
      * right. apply skipn_all2. lia.
Qed.

(** C8 as stated fails on its tie rule: of [d02] and [d03], each met
    twice, [d02] is met first, yet with ties in the reverse order of first
    appearance -- an order the unstable sort of line 193 can give -- the
    ranking lists [d03] before [d02]. *)
Lemma C8_ties_not_by_first_occurrence :
  top_diagnosticos Pd.ultimos_primeiro visao_empates
  = [(py "d03", 2%nat); (py "d02", 2%nat); (py "d01", 1%nat); (py "d00", 1%nat)]
  /\ ~ StronglySorted
         (ranked_before (Pd.values (map diagnostico visao_empates)))
         (top_diagnosticos Pd.ultimos_primeiro visao_empates).
Proof.
  assert (E : top_diagnosticos Pd.ultimos_primeiro visao_empates
              = [(py "d03", 2%nat); (py "d02", 2%nat);
                 (py "d01", 1%nat); (py "d00", 1%nat)])
    by (vm_compute; reflexivity).
  split; [exact E|]. rewrite E. intros H.
  apply StronglySorted_inv in H as [_ H]. apply Forall_inv in H.
  destruct H as [H|[_ H]]; vm_compute in H; lia.
Qed.

(** ** Visits per month *)

Lemma month_range_In lo hi m : In m (Pd.month_range lo hi) <-> lo <= m <= hi.
Proof.
  unfold Pd.month_range. rewrite in_map_iff. split.
  - intros (i & <- & Hi). apply in_seq in Hi. lia.
  - intros H. exists (Z.to_nat (m - lo)). split; [lia|]. apply in_seq. lia.
Qed.

Lemma month_range_sorted lo hi : StronglySorted Z.lt (Pd.month_range lo hi).
Proof.
  unfold Pd.month_range. generalize (Z.to_nat (hi - lo + 1)) as n.
  generalize 0%nat as start.
  intros start n; revert start; induction n as [|n IH]; intros start; simpl.
  - constructor.
  - constructor; [apply IH|]. apply Forall_forall. intros m Hm.
    apply in_map_iff in Hm as (i & <- & Hi). apply in_seq in Hi. lia.
Qed.

Lemma StronglySorted_lt_NoDup l : StronglySorted Z.lt l -> NoDup l.
Proof.
  induction 1 as [|x l Hs IH Hf]; constructor; [|assumption].
  intros Hx. rewrite Forall_forall in Hf. specialize (Hf x Hx). lia.
Qed.

Lemma months_In view k :
  In k (map month_of (entradas view)) <-> exists r, In r view /\ mes r = Some k.
Proof.
  rewrite in_map_iff. unfold mes. split.
  - intros (t & <- & Ht). apply entradas_In in Ht as (r & Hr & E).
    exists r. split; [assumption|]. now rewrite E.
  - intros (r & Hr & E). destruct (dataEntrada r) as [t|] eqn:Et; [|discriminate].
    injection E as <-. exists t. split; [reflexivity|].
    apply entradas_In. eauto.
Qed.

Lemma months_count view m :
  count_occ Z.eq_dec (map month_of (entradas view)) m = visitas_no_mes view m.
Proof.
  unfold visitas_no_mes, mes.
  induction view as [|r view IH]; simpl; [reflexivity|].
  destruct (dataEntrada r) as [t|]; simpl; [|assumption].
  destruct (Z.eq_dec (month_of t) m) as [E|E].
  - apply Z.eqb_eq in E as E'. rewrite E'. simpl. now rewrite IH.
  - apply Z.eqb_neq in E as E'. now rewrite E'.
Qed.

Lemma first_day_step k : first_day k + 28 <= first_day (k + 1).
Proof.
  unfold first_day, days_from_civil.
  repeat match goal with
         | |- context [Z.leb ?a ?b] => destruct (Z.leb_spec a b)
         end;
  repeat match goal with
         | |- context [Z.ltb ?a ?b] => destruct (Z.ltb_spec a b)
         end;
  Z.div_mod_to_equations; lia.
Qed.

Lemma first_day_lt k1 k2 : k1 < k2 -> first_day k1 < first_day k2.
Proof.
  intros H. replace k2 with (k1 + 1 + Z.of_nat (Z.to_nat (k2 - k1 - 1))) by lia.
  generalize (Z.to_nat (k2 - k1 - 1)) as n. induction n as [|n IH].
  - pose proof (first_day_step k1). rewrite Z.add_0_r. lia.
  - pose proof (first_day_step (k1 + 1 + Z.of_nat n)).
    replace (k1 + 1 + Z.of_nat (S n)) with (k1 + 1 + Z.of_nat n + 1) by lia.
    lia.
Qed.

Lemma month_end_lt k1 k2 : k1 < k2 -> month_end k1 < month_end k2.
Proof.
  intros H. unfold month_end.
  assert (first_day (k1 + 1) < first_day (k2 + 1)) by (apply first_day_lt; lia).
  pose proof NS_PER_DAY_pos. nia.
Qed.

Lemma map_month_end_sorted l :
  StronglySorted Z.lt l -> StronglySorted Z.lt (map month_end l).
Proof.
  induction 1 as [|x l Hs IH Hf]; simpl; constructor; [assumption|].
  rewrite Forall_forall in *. intros y Hy.
  apply in_map_iff in Hy as (k & <- & Hk). apply month_end_lt. now apply Hf.
Qed.

Lemma vendas_tempo_spec view :
  entradas view <> [] ->
  exists lo hi,
    (exists r, In r view /\ mes r = Some lo)
    /\ (exists r, In r view /\ mes r = Some hi)
    /\ (forall r k, In r view -> mes r = Some k -> lo <= k <= hi)
    /\ vendas_tempo view
       = map (fun m => (month_end m, visitas_no_mes view m))
             (Pd.month_range lo hi).
Proof.
  intros Hne. unfold vendas_tempo, Pd.resample_M_size.
  set (months := map month_of (entradas view)).
  assert (Hm : months <> []).
  { unfold months. destruct (entradas view); [congruence | discriminate]. }
  destruct (col_min_spec _ Hm) as (lo & -> & Hlo1 & Hlo2).
  destruct (col_max_spec _ Hm) as (hi & -> & Hhi1 & Hhi2).
  exists lo, hi. repeat split.
  - now apply months_In.
  - now apply months_In.
  - apply Hlo2. apply months_In. eauto.
  - apply Hhi2. apply months_In. eauto.
  - apply map_ext. intros m. f_equal. apply months_count.
Qed.

(** C7: for a filtered view of a loaded Dataset that is not empty, the
    series has one point per calendar month from the month of the earliest
    visit to the month of the latest: the months [lo] to [hi] each once and
    in increasing order, every point labelled with the last day of its
    month, the labels increasing, and the count of a point being the number
    of visits of the view in its month, hence 0 for a month without
    visits; for an empty view the series is empty. *)
Theorem C7_vendas_tempo :
  forall (to_datetime : cell -> option Timestamp) (csv : list RawRow)
         (cidades : list cell) (data_inicio data_fim : Z),
    let view := df_filtered (carregar_dados to_datetime csv)
                            cidades data_inicio data_fim in
    (view = [] -> vendas_tempo view = [])
    /\ (view <> [] ->
        exists lo hi months,
          (exists r, In r view /\ mes r = Some lo)
          /\ (exists r, In r view /\ mes r = Some hi)
          /\ (forall r, In r view -> exists k, mes r = Some k /\ lo <= k <= hi)
          /\ (forall m, In m months <-> lo <= m <= hi)
          /\ StronglySorted Z.lt months
          /\ vendas_tempo view
             = map (fun m => (month_end m, visitas_no_mes view m)) months
          /\ StronglySorted Z.lt (map fst (vendas_tempo view))).
Proof.
  intros to_datetime csv cidades data_inicio data_fim view. split.
  - intros ->. reflexivity.
  - intros Hne.
    assert (Hrow : forall r, In r view -> exists e, dataEntrada r = Some e).
    { intros r Hr. apply df_filtered_In in Hr as (_ & _ & t & Ht & _). eauto. }
    assert (Hts : entradas view <> []).
    { destruct view as [|r view']; [congruence|].
      destruct (Hrow r (or_introl eq_refl)) as (e & He).
      simpl. rewrite He. discriminate. }
    destruct (vendas_tempo_spec view Hts) as (lo & hi & Hlo & Hhi & Hb & E).
    exists lo, hi, (Pd.month_range lo hi).
    split; [assumption|]. split; [assumption|].
    split; [|split; [|split; [|split]]].
    + intros r Hr. destruct (Hrow r Hr) as (e & He).
      exists (month_of e). unfold mes. rewrite He. split; [reflexivity|].
      apply (Hb r); [assumption|]. unfold mes. now rewrite He.
    + intros m. apply month_range_In.
    + apply month_range_sorted.
    + exact E.
    + rewrite E, map_map. simpl.
      apply map_month_end_sorted, month_range_sorted.
Qed.

(** ** Search in the complaints *)

Lemma matches_LitI t m :
  Re.Matches (Re.LitI t) m <-> map PyStr.lower m = map PyStr.lower t.
Proof.
  revert m; induction t as [|c t IH]; intros m; simpl.
  - split.
    + now inversion 1.
    + intros H. destruct m; [constructor | discriminate].
  - rewrite matches_cat. split.
    + intros (s1 & s2 & -> & H1 & H2).
      apply matches_cls in H1 as (x & -> & Hx). apply N.eqb_eq in Hx.
      apply IH in H2. simpl. now rewrite Hx, H2.
    + intros H. destruct m as [|x m]; [discriminate|].
      simpl in H. injection H as Hx Hm.
      exists [x], m. split; [reflexivity|]. split; [|now apply IH].
      constructor. now apply N.eqb_eq.
Qed.

Lemma search_from_spec p s :
  Re.search_from p s = true <->
  exists a rest, s = a ++ rest
                 /\ Re.match_here (Re.at_end (Re.eol p)) (Re.body p) rest = true.
Proof.
  induction s as [|c s IH]; simpl.
  - rewrite orb_false_r. split.
    + intros H. now exists [], [].
    + intros (a & rest & E & H). symmetry in E.
      apply app_eq_nil in E as [-> ->]. exact H.
  - rewrite orb_true_iff, IH. split.
    + intros [H|(a & rest & -> & H)].
      * now exists [], (c :: s).
      * now exists (c :: a), rest.
    + intros (a & rest & E & H). destruct a as [|x a]; simpl in E.
      * left. now subst.
      * injection E as <- ->. right. now exists a, rest.
Qed.

(** For a term of ordinary characters the search is the case-blind
    substring test. *)
Lemma search_termo termo rx s :
  compilar_termo termo = Some rx ->
  (Re.search rx s = true <-> contem_sem_caixa termo s).
Proof.
  unfold compilar_termo.
  destruct (existsb Re.is_special termo); [discriminate|].
  intros [= <-]. unfold Re.search; simpl.
  rewrite search_from_spec; simpl. unfold contem_sem_caixa. split.
  - intros (a & rest & -> & H).
    apply match_here_spec in H as (m & b & -> & H & _).
    apply matches_LitI in H. now exists a, m, b.
  - intros (a & m & b & -> & H). exists a, (m ++ b). split; [reflexivity|].
    apply match_here_spec. exists m, b. repeat split. now apply matches_LitI.
Qed.

(** What the search returns for a non-empty term of ordinary characters:
    the rows whose complaint, cast to text, holds the term. *)
Lemma df_queixa_In view termo r :
  termo <> [] ->
  existsb Re.is_special termo = false ->
  exists rows,
    df_queixa view termo = Casos rows
    /\ (In r rows <->
        In r view /\ contem_sem_caixa termo (Pd.astype_str (queixa r))).
Proof.
  intros Hne Hplain. unfold df_queixa.
  destruct termo as [|c termo]; [congruence|].
  destruct (compilar_termo (c :: termo)) as [rx|] eqn:E.
  - eexists. split; [reflexivity|].
    rewrite filter_In. unfold Pd.str_contains.
    now rewrite (search_termo _ _ _ E).
  - unfold compilar_termo in E. rewrite Hplain in E. discriminate.
Qed.

Lemma df_queixa_febre :
  df_queixa [linha_com_queixa (Some (py "Febre alta"));
             linha_com_queixa (Some (py "febre e tosse"));
             linha_com_queixa (Some (py "dor"))]
            (py "febre")
  = Casos [linha_com_queixa (Some (py "Febre alta"));
           linha_com_queixa (Some (py "febre e tosse"))].
Proof. vm_compute. reflexivity. Qed.

(** C6, where the code departs from it: a row without complaint text is
    cast to the text [nan] by [astype(str)] before the search, so it is
    found by the term [nan] although [na=False] is passed. *)
Theorem C6_df_queixa_null_matches :
  df_queixa [linha_com_queixa None] (py "nan") = Casos [linha_com_queixa None]
  /\ queixa (linha_com_queixa None) = None.
Proof. split; vm_compute; reflexivity. Qed.

(** ** The pipeline on the small file *)

Lemma exemplo_carregado :
  map (fun r => (diagnostico r, idade_no_atendimento r, faixa_etaria r))
      (carregar_dados iso_date exemplo)
  = [(None, Some 20, Some (py "Adulto (20-59)"));
     (Some (py "GRIPE"), Some 1, Some (py "Bebê (0-2)"));
     (Some (py "ASMA"), Some 70, Some (py "Idoso (60+)"))].
Proof. vm_compute. reflexivity. Qed.

Lemma exemplo_vendas_tempo :
  map (fun p => (civil_from_days (date (fst p)), snd p))
      (vendas_tempo (carregar_dados iso_date exemplo))
  = [((2020, 1, 31), 1%nat); ((2020, 2, 29), 0%nat); ((2020, 3, 31), 1%nat);
     ((2020, 4, 30), 0%nat); ((2020, 5, 31), 0%nat); ((2020, 6, 30), 1%nat)].
Proof. vm_compute. reflexivity. Qed.

Lemma exemplo_ranking :
  top_diagnosticos Pd.ultimos_primeiro (carregar_dados iso_date exemplo)
  = [(py "ASMA", 1%nat); (py "GRIPE", 1%nat)]
  /\ top_diag Pd.ultimos_primeiro (carregar_dados iso_date exemplo)
     = py "ASMA".
Proof. split; vm_compute; reflexivity. Qed.

Lemma C2_exemplo :
  In (registro "Bauru" "2020-06-07" "1950-01-01" "dor" "  ASMA ") exemplo
  /\ (In (linha iso_date
            (registro "Bauru" "2020-06-07" "1950-01-01" "dor" "  ASMA "))
         (carregar_dados iso_date exemplo)
      <-> exists n e,
            iso_date (Some (py "1950-01-01")) = Some n
            /\ iso_date (Some (py "2020-06-07")) = Some e
            /\ 0 <= days (e - n) / 365 < 120).
Proof.
  assert (H : In (registro "Bauru" "2020-06-07" "1950-01-01" "dor" "  ASMA ")
                 exemplo) by (simpl; tauto).
  split; [exact H|].
  exact (proj1 (C2_carregar_dados_rows iso_date exemplo) _ H).
Defined.

Lemma C3_age_two :
  0 <= 2 < 120
  /\ Pd.cut bins labels (Some 2) = Some (faixa_de 2)
  /\ In (faixa_de 2) labels.
Proof.
  assert (H : 0 <= 2 < 120) by lia.
  split; [exact H|].
  exact (proj1 (proj2 C3_faixa_etaria) 2 H).
Defined.

Lemma C5_exemplo :
  Pd.values (map diagnostico (carregar_dados iso_date exemplo)) <> []
  /\ In (Some (top_diag Pd.ultimos_primeiro (carregar_dados iso_date exemplo)))
        (map diagnostico (carregar_dados iso_date exemplo))
  /\ forall d,
       (Pd.count d (Pd.values (map diagnostico (carregar_dados iso_date exemplo)))
        <= Pd.count (top_diag Pd.ultimos_primeiro (carregar_dados iso_date exemplo))
             (Pd.values (map diagnostico (carregar_dados iso_date exemplo))))%nat.
Proof.
  assert (H : Pd.values (map diagnostico (carregar_dados iso_date exemplo)) <> [])
    by (vm_compute; discriminate).
  split; [exact H|].
  exact (proj1 (proj2 (C5_top_diag Pd.ultimos_primeiro (carregar_dados iso_date exemplo))) H).
Defined.

Lemma C7_exemplo :
  let view := df_filtered (carregar_dados iso_date exemplo)
                          [Some (py "Bauru")] 18262 18500 in
  view <> []
  /\ exists lo hi months,
       (exists r, In r view /\ mes r = Some lo)
       /\ (exists r, In r view /\ mes r = Some hi)
       /\ (forall r, In r view -> exists k, mes r = Some k /\ lo <= k <= hi)
       /\ (forall m, In m months <-> lo <= m <= hi)
       /\ StronglySorted Z.lt months
       /\ vendas_tempo view
          = map (fun m => (month_end m, visitas_no_mes view m)) months
       /\ StronglySorted Z.lt (map fst (vendas_tempo view)).
Proof.
  intros view.
  assert (H : view <> []) by (vm_compute; discriminate).
  split; [exact H|].
  exact (proj2 (C7_vendas_tempo iso_date exemplo [Some (py "Bauru")]
                                18262 18500) H).
Defined.

Lemma C8_exemplo :
  In (py "ASMA", 1%nat) (top_diagnosticos Pd.ultimos_primeiro (carregar_dados iso_date exemplo))
  /\ In (Some (py "ASMA")) (map diagnostico (carregar_dados iso_date exemplo))
  /\ 1%nat = Pd.count (py "ASMA")
               (Pd.values (map diagnostico (carregar_dados iso_date exemplo)))
  /\ (1 <= 1)%nat.
Proof.
  assert (H : In (py "ASMA", 1%nat)
                 (top_diagnosticos Pd.ultimos_primeiro (carregar_dados iso_date exemplo)))
    by (vm_compute; tauto).
  split; [exact H|].
  exact (proj1 (proj2 (C8_top_diagnosticos Pd.ultimos_primeiro (carregar_dados iso_date exemplo)))
               _ _ H).
Defined.

(* ================================================================== *)
(** * Further properties of the script *)

(** ** Composing the sidebar filter *)

Lemma bool_ext (a b : bool) : (a = true <-> b = true) -> a = b.
Proof.
  destruct a, b; intros [H1 H2]; try reflexivity.
  - symmetry. now apply H1.
  - now apply H2.
Qed.

Lemma filter_filter_and {A} (f g : A -> bool) l :
  filter f (filter g l) = filter (fun x => g x && f x) l.
Proof.
  induction l as [|x l IH]; simpl; [reflexivity|].
  destruct (g x); simpl; [destruct (f x); now rewrite IH | assumption].
Qed.

Lemma isin_In c values : Pd.isin c values = true <-> In c values.
Proof.
  unfold Pd.isin. rewrite existsb_exists. split.
  - intros (x & Hx & E). apply cell_eqb_eq in E. now subst.
  - intros H. exists c. split; [assumption | now apply cell_eqb_eq].
Qed.

(** X1: filtering a view again with the criteria that produced it changes
    nothing. *)
Theorem X1_df_filtered_idempotent :
  forall (df : list Row) (cidades : list cell) (data_inicio data_fim : Z),
    df_filtered (df_filtered df cidades data_inicio data_fim)
                cidades data_inicio data_fim
    = df_filtered df cidades data_inicio data_fim.
Proof.
  intros df cidades a b. unfold df_filtered.
  rewrite filter_filter_and. apply filter_ext. intros r.
  now destruct (no_filtro cidades a b r).
Qed.

(** X2: two filters in a row are one filter: the cities chosen both
    times, from the later of the two start days to the earlier of the two
    end days. *)
Theorem X2_df_filtered_compose :
  forall (df : list Row) (cidades1 cidades2 : list cell)
         (inicio1 fim1 inicio2 fim2 : Z),
    df_filtered (df_filtered df cidades1 inicio1 fim1) cidades2 inicio2 fim2
    = df_filtered df (filter (fun c => Pd.isin c cidades2) cidades1)
                  (Z.max inicio1 inicio2) (Z.min fim1 fim2).
Proof.
  intros df c1 c2 a1 b1 a2 b2. unfold df_filtered.
  rewrite filter_filter_and. apply filter_ext. intros r.
  apply bool_ext. rewrite andb_true_iff, !no_filtro_spec, filter_In, isin_In.
  split.
  - intros [(Hc1 & t & Ht & H1) (Hc2 & t' & Ht' & H2)].
    assert (t' = t) as -> by congruence.
    split; [now split|]. exists t. split; [assumption | lia].
  - intros ((Hc1 & Hc2) & t & Ht & H).
    split; (split; [assumption|]); exists t; (split; [assumption | lia]).
Qed.

(** X3: a filter never adds rows; with no city chosen, or with the end
    day before the start day, the view is empty. *)
Theorem X3_df_filtered_bounds :
  forall (df : list Row) (cidades : list cell) (data_inicio data_fim : Z),
    (total_atendimentos (df_filtered df cidades data_inicio data_fim)
     <= total_atendimentos df)%nat
    /\ df_filtered df [] data_inicio data_fim = []
    /\ (data_fim < data_inicio ->
        df_filtered df cidades data_inicio data_fim = []).
Proof.
  intros df cidades a b. split; [apply filter_length_le|]. split.
  - unfold df_filtered. induction df as [|r df IH]; [reflexivity|].
    simpl. exact IH.
  - intros Hlt. unfold df_filtered.
    induction df as [|r df IH]; [reflexivity|]. simpl.
    destruct (no_filtro cidades a b r) eqn:E; [|exact IH].
    apply no_filtro_spec in E as (_ & t & _ & H). lia.
Qed.

Lemma X3_inverted_range :
  18500 < 18600
  /\ df_filtered (carregar_dados iso_date exemplo)
                 (cidades_default (carregar_dados iso_date exemplo))
                 18600 18500 = [].
Proof.
  assert (H : 18500 < 18600) by lia.
  split; [exact H|].
  exact (proj2 (proj2 (X3_df_filtered_bounds
                         (carregar_dados iso_date exemplo)
                         (cidades_default (carregar_dados iso_date exemplo))
                         18600 18500)) H).
Defined.

(** ** Distinct values: the city options and the patient count *)

Lemma unique_from_spec seen col c :
  In c (Pd.unique_from seen col) <-> In c col /\ ~ In c seen.
Proof.
  revert seen; induction col as [|x col IH]; intros seen; simpl; [tauto|].
  destruct (Pd.isin x seen) eqn:E.
  - apply isin_In in E. rewrite IH. split.
    + intros [H1 H2]. split; [now right | assumption].
    + intros [[->|H1] H2]; [contradiction | now split].
  - assert (Hx : ~ In x seen).
    { intros H. apply isin_In in H. congruence. }
    simpl. rewrite IH. simpl. split.
    + intros [->|[H1 H2]]; [split; [now left | assumption]|].
      split; [now right | tauto].
    + intros [[->|H1] H2]; [now left|].
      destruct (Pd.cell_eqb x c) eqn:Ec.
      * apply cell_eqb_eq in Ec. now left.
      * right. split; [assumption|]. intros [->|H]; [|contradiction].
        assert (Pd.cell_eqb c c = true) by now apply cell_eqb_eq.
        congruence.
Qed.

Lemma unique_from_NoDup seen col : NoDup (Pd.unique_from seen col).
Proof.
  revert seen; induction col as [|x col IH]; intros seen; simpl; [constructor|].
  destruct (Pd.isin x seen); [apply IH|].
  constructor; [|apply IH].
  intros H. apply unique_from_spec in H as [_ H]. apply H. now left.
Qed.

Lemma unique_spec col c : In c (Pd.unique col) <-> In c col.
Proof. unfold Pd.unique. rewrite unique_from_spec. simpl. tauto. Qed.

Lemma dropna_In col c : In c (Pd.dropna col) <-> In c col /\ c <> None.
Proof.
  unfold Pd.dropna. rewrite filter_In. destruct c; simpl; split.
  - intros [H _]. split; [assumption | discriminate].
  - intros [H _]. now split.
  - intros [_ H]. discriminate.
  - intros [_ H]. congruence.
Qed.

(** X4: the options of the city selector are the cities of the Dataset,
    each listed once; a missing city (NaN) is one of them when some row
    has none. *)
Theorem X4_cidades_default :
  forall df : list Row,
    NoDup (cidades_default df)
    /\ forall c : cell, In c (cidades_default df) <-> In c (map cidade df).
Proof.
  intros df. unfold cidades_default. split.
  - apply unique_from_NoDup.
  - intros c. apply unique_spec.
Qed.

(** X5: the count of distinct patients never exceeds the count of visits,
    never grows under a filter, and is zero exactly when no row of the view
    has an identifier. *)
Theorem X5_pacientes_unicos :
  forall (df : list Row) (cidades : list cell) (data_inicio data_fim : Z),
    (pacientes_unicos df <= total_atendimentos df)%nat
    /\ (pacientes_unicos (df_filtered df cidades data_inicio data_fim)
        <= pacientes_unicos df)%nat
    /\ (pacientes_unicos df = 0%nat <-> forall r, In r df -> _id r = None).
Proof.
  intros df cidades a b. unfold pacientes_unicos, total_atendimentos.
  split; [|split].
  - rewrite <- (length_map _id df).
    apply NoDup_incl_length; [apply unique_from_NoDup|].
    intros c Hc. rewrite unique_spec, dropna_In in Hc. tauto.
  - apply NoDup_incl_length; [apply unique_from_NoDup|].
    intros c Hc. rewrite unique_spec, dropna_In in Hc. destruct Hc as [Hc Hn].
    rewrite unique_spec, dropna_In. split; [|assumption].
    apply in_map_iff in Hc as (r & <- & Hr). apply in_map.
    now apply df_filtered_In in Hr as [Hr _].
  - rewrite length_zero_iff_nil. split.
    + intros E r Hr. destruct (_id r) as [i|] eqn:Ei; [|reflexivity].
      assert (In (Some i) (Pd.unique (Pd.dropna (map _id df)))) as H.
      { rewrite unique_spec, dropna_In. split; [|discriminate].
        rewrite <- Ei. now apply in_map. }
      rewrite E in H. contradiction.
    + intros H. destruct (Pd.unique (Pd.dropna (map _id df))) as [|c l] eqn:E;
        [reflexivity|].
      assert (In c (Pd.unique (Pd.dropna (map _id df)))) as Hc
          by (rewrite E; now left).
      rewrite unique_spec, dropna_In in Hc. destruct Hc as [Hc Hn].
      apply in_map_iff in Hc as (r & <- & Hr). now apply H in Hr.
Qed.

(** ** The observed span and the period of analysis *)

(** X6: on any dataframe the earliest and the latest visit day are each
    the day of some visit, the earliest is not after the latest, and the
    day of every dated row lies between them; they are undefined only when
    no row has a visit date. *)
Theorem X6_min_max_date :
  forall view : list Row,
    match min_date view, max_date view with
    | Some lo, Some hi =>
      lo <= hi
      /\ (exists r t, In r view /\ dataEntrada r = Some t /\ date t = lo)
      /\ (exists r t, In r view /\ dataEntrada r = Some t /\ date t = hi)
      /\ forall r t, In r view -> dataEntrada r = Some t -> lo <= date t <= hi
    | _, _ => entradas view = []
    end.
Proof.
  intros view. unfold min_date, max_date.
  destruct (entradas view) as [|t0 ts] eqn:E; [reflexivity|].
  assert (Hne : t0 :: ts <> []) by discriminate.
  destruct (col_min_spec _ Hne) as (lo & -> & Hlo1 & Hlo2).
  destruct (col_max_spec _ Hne) as (hi & -> & Hhi1 & Hhi2).
  simpl option_map. cbv iota.
  rewrite <- E in Hlo1, Hlo2, Hhi1, Hhi2.
  apply entradas_In in Hlo1 as (r1 & Hr1 & Et1).
  apply entradas_In in Hhi1 as (r2 & Hr2 & Et2).
  assert (Hin : forall r t, In r view -> dataEntrada r = Some t ->
                            In t (entradas view)).
  { intros r t Hr Ht. apply entradas_In. eauto. }
  split; [apply date_mono, Hlo2; eauto|].
  split; [now exists r1, lo|]. split; [now exists r2, hi|].
  intros r t Hr Ht. split; apply date_mono; eauto.
Qed.

Lemma default_filter_all to_datetime csv lo hi :
  min_date (carregar_dados to_datetime csv) = Some lo ->
  max_date (carregar_dados to_datetime csv) = Some hi ->
  df_filtered (carregar_dados to_datetime csv)
              (cidades_default (carregar_dados to_datetime csv)) lo hi
  = carregar_dados to_datetime csv.
Proof.
  intros Elo Ehi. set (df := carregar_dados to_datetime csv) in *.
  apply filter_all. intros r Hr. apply no_filtro_spec. split.
  - apply unique_In. now apply in_map.
  - apply (carregar_dados_idade to_datetime csv) in Hr as Hr'.
    destruct Hr' as (a & n & e & _ & He & _).
    exists e. split; [assumption|].
    assert (In e (entradas df)) as Hin by (apply entradas_In; eauto).
    unfold min_date, max_date in Elo, Ehi.
    destruct (entradas df) as [|t0 ts] eqn:E; [contradiction|].
    assert (Hne : t0 :: ts <> []) by discriminate.
    destruct (col_min_spec _ Hne) as (lo' & El & _ & Hlo).
    destruct (col_max_spec _ Hne) as (hi' & Eh & _ & Hhi).
    rewrite El in Elo. rewrite Eh in Ehi. simpl in Elo, Ehi.
    injection Elo as <-. injection Ehi as <-.
    split; apply date_mono; auto.
Qed.

(** X7: when the date widget hands back anything but two dates -- the
    range is still being picked -- the period falls back to the whole
    observed span, so with every city selected the view is the whole
    Dataset; two dates are taken as they are. *)
Theorem X7_periodo_fallback :
  forall (to_datetime : cell -> option Timestamp) (csv : list RawRow)
         (selecao : list Z),
    let df := carregar_dados to_datetime csv in
    match min_date df, max_date df with
    | Some lo, Some hi =>
      (List.length selecao <> 2%nat ->
       periodo selecao lo hi = (lo, hi)
       /\ df_filtered df (cidades_default df)
                      (fst (periodo selecao lo hi))
                      (snd (periodo selecao lo hi)) = df)
      /\ (forall a b, selecao = [a; b] -> periodo selecao lo hi = (a, b))
    | _, _ => df = []
    end.
Proof.
  intros to_datetime csv selecao df.
  destruct (min_date df) as [lo|] eqn:Elo; destruct (max_date df) as [hi|] eqn:Ehi.
  - split.
    + intros Hlen.
      assert (E : periodo selecao lo hi = (lo, hi)).
      { destruct selecao as [|a [|b [|c l]]]; simpl in *; try reflexivity.
        congruence. }
      split; [exact E|]. rewrite E. simpl.
      now apply default_filter_all.
    + intros a b ->. reflexivity.
  - unfold min_date, max_date in *.
    destruct (entradas df); simpl in *; discriminate.
  - unfold min_date, max_date in *.
    destruct (entradas df); simpl in *; discriminate.
  - destruct df as [|r df'] eqn:Edf; [reflexivity|]. exfalso.
    assert (Hr : In r (carregar_dados to_datetime csv)).
    { fold df. rewrite Edf. now left. }
    apply (carregar_dados_idade to_datetime csv) in Hr
      as (a & n & e & _ & He & _).
    unfold min_date in Elo. simpl in Elo. rewrite He in Elo. discriminate.
Qed.

Lemma X7_partial_selection :
  List.length [18262] <> 2%nat
  /\ periodo [18262] 18262 18420 = (18262, 18420)
  /\ df_filtered (carregar_dados iso_date exemplo)
                 (cidades_default (carregar_dados iso_date exemplo))
                 (fst (periodo [18262] 18262 18420))
                 (snd (periodo [18262] 18262 18420))
     = carregar_dados iso_date exemplo.
Proof.
  assert (H : List.length [18262] <> 2%nat) by (simpl; lia).
  split; [exact H|].
  exact (proj1 (X7_periodo_fallback iso_date exemplo [18262]) H).
Defined.

(** ** Totals of the grouped counts *)

Lemma list_sum_zero {A} (f : A -> nat) ks :
  (forall k, In k ks -> f k = 0%nat) -> list_sum (map f ks) = 0%nat.
Proof.
  induction ks as [|k ks IH]; intros H; [reflexivity|]. simpl.
  rewrite (H k) by now left. apply IH. intros z Hz. apply H. now right.
Qed.

Lemma sum_indicator {A} (f : A -> nat) (x : A) ks :
  NoDup ks -> In x ks -> f x = 1%nat ->
  (forall k, In k ks -> k <> x -> f k = 0%nat) ->
  list_sum (map f ks) = 1%nat.
Proof.
  induction ks as [|k ks IH]; intros Hnd Hin Hx H0; [contradiction|].
  inversion Hnd as [|? ? Hk Hnd']; subst. simpl.
  destruct Hin as [->|Hin].
  - rewrite Hx. rewrite list_sum_zero.
    + reflexivity.
    + intros z Hz. apply H0; [now right|]. intros E. subst z. contradiction.
  - assert (E : f k = 0%nat).
    { apply H0; [now left|]. intros ->. contradiction. }
    rewrite E. simpl. apply IH; auto. intros z Hz. apply H0. now right.
Qed.

Lemma list_sum_map_add {A} (f g : A -> nat) l :
  list_sum (map (fun k => f k + g k)%nat l)
  = (list_sum (map f l) + list_sum (map g l))%nat.
Proof. induction l as [|x l IH]; simpl; [reflexivity | rewrite IH; lia]. Qed.

Lemma count_occ_sum (L ks : list Z) :
  NoDup ks -> (forall x, In x L -> In x ks) ->
  list_sum (map (fun m => count_occ Z.eq_dec L m) ks) = List.length L.
Proof.
  intros Hnd. induction L as [|x L IH]; intros Hin.
  - now apply list_sum_zero.
  - rewrite (map_ext _ (fun m => (if Z.eq_dec x m then 1 else 0)
                                 + count_occ Z.eq_dec L m)%nat).
    + rewrite (list_sum_map_add
                 (fun m : Z => if Z.eq_dec x m then 1 else 0)%nat
                 (fun m : Z => count_occ Z.eq_dec L m)).
      rewrite IH by (intros y Hy; apply Hin; now right).
      assert (E : list_sum (map (fun m => if Z.eq_dec x m then 1 else 0)%nat ks)
                  = 1%nat).
      { apply (sum_indicator _ x); [assumption | apply Hin; now left | |].
        - destruct (Z.eq_dec x x); congruence.
        - intros k _ Hk. destruct (Z.eq_dec x k); congruence. }
      rewrite E. reflexivity.
    + intros m. simpl. destruct (Z.eq_dec x m); reflexivity.
Qed.

Lemma count_sum (l ks : list pystr) :
  NoDup ks -> (forall x, In x l -> In x ks) ->
  list_sum (map (fun k => Pd.count k l) ks) = List.length l.
Proof.
  intros Hnd. induction l as [|x l IH]; intros Hin.
  - now apply list_sum_zero.
  - change (map (fun k => Pd.count k (x :: l)) ks)
      with (map (fun k : pystr =>
                   (if PyStr.eqb x k then 1 else 0) + Pd.count k l)%nat ks).
    rewrite (list_sum_map_add
               (fun k : pystr => if PyStr.eqb x k then 1 else 0)%nat
               (fun k : pystr => Pd.count k l)).
    rewrite IH by (intros y Hy; apply Hin; now right).
    assert (E : list_sum (map (fun k : pystr =>
                                 if PyStr.eqb x k then 1 else 0)%nat ks)
                = 1%nat).
    { apply (sum_indicator _ x); [assumption | apply Hin; now left | |].
      - now rewrite pystr_eqb_refl.
      - intros k _ Hk. destruct (PyStr.eqb x k) eqn:E; [|reflexivity].
        apply pystr_eqb_eq in E. congruence. }
    rewrite E. reflexivity.
Qed.

Lemma entradas_all view :
  (forall r, In r view -> dataEntrada r <> None) ->
  List.length (entradas view) = List.length view.
Proof.
  induction view as [|r view IH]; intros H; [reflexivity|]. simpl.
  destruct (dataEntrada r) eqn:E.
  - simpl. f_equal. apply IH. intros r' Hr'. apply H. now right.
  - exfalso. apply (H r); [now left | assumption].
Qed.

Lemma resample_sum index :
  list_sum (map snd (Pd.resample_M_size index)) = List.length index.
Proof.
  unfold Pd.resample_M_size. set (months := map month_of index).
  destruct months as [|m0 ms] eqn:E.
  - simpl. destruct index; [reflexivity | discriminate].
  - assert (Hne : m0 :: ms <> []) by discriminate.
    destruct (col_min_spec _ Hne) as (lo & -> & _ & Hlo).
    destruct (col_max_spec _ Hne) as (hi & -> & _ & Hhi).
    rewrite map_map. cbn [snd].
    rewrite count_occ_sum.
    + rewrite <- E. unfold months. apply length_map.
    + apply StronglySorted_lt_NoDup, month_range_sorted.
    + intros x Hx. apply month_range_In. split; auto.
Qed.

(** X8: the points of the monthly series add up to the visits of the view:
    on a filtered view of a loaded Dataset no visit is lost or counted
    twice by the monthly grouping. *)
Theorem X8_vendas_tempo_total :
  forall (to_datetime : cell -> option Timestamp) (csv : list RawRow)
         (cidades : list cell) (data_inicio data_fim : Z),
    list_sum (map snd (vendas_tempo
                         (df_filtered (carregar_dados to_datetime csv)
                                      cidades data_inicio data_fim)))
    = total_atendimentos (df_filtered (carregar_dados to_datetime csv)
                                      cidades data_inicio data_fim).
Proof.
  intros to_datetime csv cidades a b. unfold vendas_tempo, total_atendimentos.
  rewrite resample_sum. apply entradas_all.
  intros r Hr. apply df_filtered_In in Hr as (_ & _ & t & Ht & _). congruence.
Qed.

Lemma keys_from_NoDup seen l : NoDup (Pd.keys_from seen l).
Proof.
  revert seen; induction l as [|x l IH]; intros seen; simpl; [constructor|].
  destruct (existsb (PyStr.eqb x) seen); [apply IH|].
  constructor; [|apply IH].
  intros H. apply keys_from_In in H as [_ H]. apply H. now left.
Qed.

Lemma insert_desc_perm desempate x l :
  Permutation (Pd.insert_desc desempate x l) (x :: l).
Proof.
  induction l as [|y l IH]; simpl; [reflexivity|].
  destruct ((snd y <? snd x)%nat || (snd y =? snd x)%nat && desempate x y);
    [reflexivity|].
  rewrite IH. apply perm_swap.
Qed.

Lemma sort_values_desc_perm desempate l : Permutation (Pd.sort_values_desc desempate l) l.
Proof.
  induction l as [|x l IH]; simpl; [reflexivity|].
  rewrite insert_desc_perm. now constructor.
Qed.

Lemma list_sum_perm l1 l2 : Permutation l1 l2 -> list_sum l1 = list_sum l2.
Proof. induction 1; simpl; lia. Qed.

Lemma value_counts_keys desempate col :
  Permutation (map fst (Pd.value_counts desempate col)) (Pd.keys_from [] (Pd.values col)).
Proof.
  unfold Pd.value_counts.
  rewrite (Permutation_map fst (sort_values_desc_perm desempate _)).
  unfold Pd.counts. rewrite map_map. simpl. now rewrite map_id.
Qed.

Lemma value_counts_total desempate col :
  list_sum (map snd (Pd.value_counts desempate col)) = List.length (Pd.values col).
Proof.
  unfold Pd.value_counts.
  rewrite (list_sum_perm _ _ (Permutation_map snd (sort_values_desc_perm desempate _))).
  unfold Pd.counts. rewrite map_map. cbn [snd].
  apply count_sum; [apply keys_from_NoDup|].
  intros x Hx. apply keys_from_In. split; [assumption | tauto].
Qed.

Lemma list_sum_firstn_le n l : (list_sum (firstn n l) <= list_sum l)%nat.
Proof.
  rewrite <- (firstn_skipn n l) at 2. rewrite list_sum_app. lia.
Qed.

Lemma values_length_le col : (List.length (Pd.values col) <= List.length col)%nat.
Proof. induction col as [|[x|] col IH]; simpl; lia. Qed.

Lemma df_clean_diag_length view :
  List.length (Pd.values (map diagnostico (df_clean_diag view)))
  = List.length (df_clean_diag view).
Proof.
  unfold df_clean_diag.
  induction view as [|r view IH]; simpl; [reflexivity|].
  destruct (diagnostico r) as [d|] eqn:E; simpl; [|exact IH].
  rewrite E. simpl. now f_equal.
Qed.

(** X9: no diagnosis appears twice in the ranking; the counts of the
    ranking add up to at most the rows that carry a diagnosis, hence to at
    most the visits of the view, and to exactly the rows that carry a
    diagnosis when the view has no more than ten distinct diagnoses. *)
Theorem X9_top_diagnosticos_total :
  forall (desempate : Pd.tie_order) (view : list Row),
    NoDup (map fst (top_diagnosticos desempate view))
    /\ (list_sum (map snd (top_diagnosticos desempate view))
        <= List.length (df_clean_diag view))%nat
    /\ (List.length (df_clean_diag view) <= total_atendimentos view)%nat
    /\ ((List.length (Pd.value_counts desempate (map diagnostico view)) <= 10)%nat ->
        list_sum (map snd (top_diagnosticos desempate view))
        = List.length (df_clean_diag view)).
Proof.
  intros desempate view. unfold top_diagnosticos.
  set (col := map diagnostico (df_clean_diag view)).
  assert (Ecol : Pd.values col = Pd.values (map diagnostico view))
    by apply values_df_clean_diag.
  assert (Elen : List.length (Pd.values col) = List.length (df_clean_diag view))
    by apply df_clean_diag_length.
  split; [|split; [|split]].
  - apply (NoDup_app_remove_r _ (map fst (skipn 10 (Pd.value_counts desempate col)))).
    rewrite <- map_app, firstn_skipn.
    apply (Permutation_NoDup (Permutation_sym (value_counts_keys desempate col))).
    apply keys_from_NoDup.
  - rewrite <- Elen, <- (value_counts_total desempate), <- firstn_map.
    apply list_sum_firstn_le.
  - apply filter_length_le.
  - intros H10.
    assert (Evc : Pd.value_counts desempate col = Pd.value_counts desempate (map diagnostico view)).
    { unfold Pd.value_counts. now rewrite Ecol. }
    rewrite firstn_all2 by (rewrite Evc; exact H10).
    now rewrite value_counts_total.
Qed.

Lemma X9_exemplo :
  (List.length (Pd.value_counts Pd.ultimos_primeiro
                  (map diagnostico (carregar_dados iso_date exemplo))) <= 10)%nat
  /\ list_sum (map snd (top_diagnosticos Pd.ultimos_primeiro (carregar_dados iso_date exemplo)))
     = List.length (df_clean_diag (carregar_dados iso_date exemplo)).
Proof.
  assert (H : (List.length
                 (Pd.value_counts Pd.ultimos_primeiro
                    (map diagnostico (carregar_dados iso_date exemplo)))
               <= 10)%nat) by (vm_compute; lia).
  split; [exact H|].
  exact (proj2 (proj2 (proj2 (X9_top_diagnosticos_total Pd.ultimos_primeiro
                                (carregar_dados iso_date exemplo)))) H).
Defined.

(** ** The diagnosis selector and the profile *)

Lemma lista_diagnosticos_In view c :
  In c (lista_diagnosticos view) <->
  In c (map diagnostico view) /\ c <> None.
Proof. unfold lista_diagnosticos. now rewrite unique_spec, dropna_In. Qed.

Lemma top_diag_cases desempate view :
  (Pd.values (map diagnostico view) = [] /\ top_diag desempate view = py "N/A")
  \/ In (Some (top_diag desempate view)) (map diagnostico view).
Proof.
  unfold top_diag.
  pose proof (idxmax_spec (Pd.value_counts desempate (Pd.dropna (map diagnostico view))))
    as H.
  destruct (Pd.idxmax _) as [k|].
  - right. destruct H as (n & Hk & _).
    rewrite value_counts_In in Hk. destruct Hk as [Hk _].
    rewrite dropna_In in Hk. tauto.
  - left. split; [|reflexivity].
    destruct (Pd.values (map diagnostico view)) as [|d ds] eqn:E; [reflexivity|].
    assert (In (d, Pd.count d (Pd.values (Pd.dropna (map diagnostico view))))
               (Pd.value_counts desempate (Pd.dropna (map diagnostico view)))) as Hd.
    { rewrite value_counts_In. split; [|reflexivity].
      rewrite <- values_In, values_dropna, E. now left. }
    rewrite H in Hd. contradiction.
Qed.

(** X10: the diagnoses offered for selection are the non-null diagnoses of
    the view, each once; the list is empty exactly when the view has no
    non-null diagnosis, in which case the KPI shows [N/A], and otherwise
    the diagnosis shown by the KPI is one of those offered. *)
Theorem X10_lista_diagnosticos :
  forall (desempate : Pd.tie_order) (view : list Row),
    NoDup (lista_diagnosticos view)
    /\ (forall c, In c (lista_diagnosticos view) <->
                  In c (map diagnostico view) /\ c <> None)
    /\ (lista_diagnosticos view = [] <->
        forall r, In r view -> diagnostico r = None)
    /\ (lista_diagnosticos view = [] -> top_diag desempate view = py "N/A")
    /\ (lista_diagnosticos view <> [] ->
        In (Some (top_diag desempate view)) (lista_diagnosticos view)).
Proof.
  intros desempate view.
  assert (Hempty : lista_diagnosticos view = [] <->
                   forall r, In r view -> diagnostico r = None).
  { split.
    - intros E r Hr. destruct (diagnostico r) as [d|] eqn:Ed; [|reflexivity].
      assert (In (Some d) (lista_diagnosticos view)) as H.
      { apply lista_diagnosticos_In. split; [|discriminate].
        rewrite <- Ed. now apply in_map. }
      rewrite E in H. contradiction.
    - intros H. destruct (lista_diagnosticos view) as [|c l] eqn:E;
        [reflexivity|].
      assert (In c (lista_diagnosticos view)) as Hc by (rewrite E; now left).
      rewrite lista_diagnosticos_In in Hc. destruct Hc as [Hc Hn].
      apply in_map_iff in Hc as (r & <- & Hr). now apply H in Hr. }
  split; [apply unique_from_NoDup|].
  split; [apply lista_diagnosticos_In|].
  split; [exact Hempty|]. split.
  - intros E. destruct (top_diag_cases desempate view) as [[_ H]|H]; [assumption|].
    apply in_map_iff in H as (r & Hd & Hr).
    rewrite (proj1 Hempty E r Hr) in Hd. discriminate.
  - intros Hne. destruct (top_diag_cases desempate view) as [[Hv _]|H].
    + exfalso. apply Hne. apply Hempty. intros r Hr.
      destruct (diagnostico r) as [d|] eqn:Ed; [|reflexivity].
      assert (In d (Pd.values (map diagnostico view))) as Hd.
      { rewrite values_In, <- Ed. now apply in_map. }
      rewrite Hv in Hd. contradiction.
    + apply lista_diagnosticos_In. split; [assumption | discriminate].
Qed.

Lemma X10_exemplo :
  lista_diagnosticos (carregar_dados iso_date exemplo) <> []
  /\ In (Some (top_diag Pd.ultimos_primeiro (carregar_dados iso_date exemplo)))
        (lista_diagnosticos (carregar_dados iso_date exemplo)).
Proof.
  assert (H : lista_diagnosticos (carregar_dados iso_date exemplo) <> [])
    by (vm_compute; discriminate).
  split; [exact H|].
  exact (proj2 (proj2 (proj2 (proj2 (X10_lista_diagnosticos Pd.ultimos_primeiro
                                       (carregar_dados iso_date exemplo))))) H).
Defined.

Lemma str_leb_refl a : Np.str_leb a a = true.
Proof.
  induction a as [|x a IH]; simpl; [reflexivity|].
  now rewrite N.ltb_irrefl, N.eqb_refl.
Qed.

Lemma str_leb_total a b : Np.str_leb a b = false -> Np.str_leb b a = true.
Proof.
  revert b; induction a as [|x a IH]; intros [|y b]; simpl; try congruence.
  destruct (N.ltb_spec x y); [discriminate|].
  destruct (N.eqb_spec x y) as [->|Hne].
  - rewrite N.ltb_irrefl, N.eqb_refl. apply IH.
  - intros _. destruct (N.ltb_spec y x); [reflexivity | lia].
Qed.

Lemma str_leb_trans a b c :
  Np.str_leb a b = true -> Np.str_leb b c = true -> Np.str_leb a c = true.
Proof.
  revert b c; induction a as [|x a IH]; intros [|y b] [|z c]; simpl;
    try congruence.
  destruct (N.ltb_spec x y); destruct (N.ltb_spec y z);
    destruct (N.eqb_spec x y); destruct (N.eqb_spec y z);
    destruct (N.ltb_spec x z); destruct (N.eqb_spec x z);
    try congruence; try lia; intros Hab Hbc; try reflexivity;
    try discriminate.
  now apply (IH b c).
Qed.

Lemma str_leb_antisym a b :
  Np.str_leb a b = true -> Np.str_leb b a = true -> a = b.
Proof.
  revert b; induction a as [|x a IH]; intros [|y b]; simpl; try congruence.
  destruct (N.ltb_spec x y); destruct (N.ltb_spec y x);
    destruct (N.eqb_spec x y); destruct (N.eqb_spec y x);
    try congruence; try lia; intros Hab Hba; try discriminate.
  subst. f_equal. now apply IH.
Qed.

Lemma np_insert_perm x l : Permutation (Np.insert x l) (x :: l).
Proof.
  induction l as [|y l IH]; simpl; [reflexivity|].
  destruct (Np.str_leb x y); [reflexivity|].
  rewrite IH. apply perm_swap.
Qed.

Lemma np_sort_perm l : Permutation (Np.sort l) l.
Proof.
  induction l as [|x l IH]; simpl; [reflexivity|].
  rewrite np_insert_perm. now constructor.
Qed.

Lemma np_insert_sorted x l :
  StronglySorted (fun a b => Np.str_leb a b = true) l ->
  StronglySorted (fun a b => Np.str_leb a b = true) (Np.insert x l).
Proof.
  induction l as [|y l IH]; intros H; simpl; [repeat constructor|].
  inversion H as [|? ? Hs Hf]; subst.
  destruct (Np.str_leb x y) eqn:E.
  - constructor; [assumption|]. constructor; [assumption|].
    rewrite Forall_forall in *. intros z Hz.
    apply (str_leb_trans x y z); auto.
  - constructor; [now apply IH|].
    apply Forall_forall. intros z Hz.
    apply (Permutation_in _ (np_insert_perm x l)) in Hz.
    destruct Hz as [<-|Hz]; [now apply str_leb_total|].
    rewrite Forall_forall in Hf. now apply Hf.
Qed.

Lemma np_sort_sorted l :
  StronglySorted (fun a b => Np.str_leb a b = true) (Np.sort l).
Proof.
  induction l as [|x l IH]; simpl; [constructor | now apply np_insert_sorted].
Qed.

Lemma StronglySorted_strict {A} (R : A -> A -> Prop) l :
  StronglySorted R l -> NoDup l ->
  StronglySorted (fun a b => R a b /\ a <> b) l.
Proof.
  induction 1 as [|x l Hs IH Hf]; intros Hnd; [constructor|].
  inversion Hnd as [|? ? Hx Hnd']; subst.
  constructor; [now apply IH|].
  rewrite Forall_forall in *. intros y Hy. split; [now apply Hf|].
  intros ->. contradiction.
Qed.

Lemma values_NoDup col : NoDup col -> NoDup (Pd.values col).
Proof.
  induction col as [|[x|] col IH]; intros H; simpl.
  - constructor.
  - inversion H as [|? ? Hx Hnd]; subst.
    constructor; [|now apply IH]. now rewrite values_In.
  - inversion H; subst. now apply IH.
Qed.

Lemma values_length_all col :
  (forall c, In c col -> c <> None) ->
  List.length (Pd.values col) = List.length col.
Proof.
  induction col as [|[x|] col IH]; intros H; simpl.
  - reflexivity.
  - f_equal. apply IH. intros c Hc. apply H. now right.
  - exfalso. apply (H None); [now left | reflexivity].
Qed.

(** X11: the options of the diagnosis selector are the non-null diagnoses
    of the view in strictly increasing code point order, every such
    diagnosis being offered once. *)
Theorem X11_opcoes_diagnostico :
  forall view : list Row,
    StronglySorted (fun a b => Np.str_leb a b = true /\ a <> b)
                   (opcoes_diagnostico view)
    /\ (forall d, In d (opcoes_diagnostico view) <->
                  In (Some d) (map diagnostico view))
    /\ List.length (opcoes_diagnostico view)
       = List.length (lista_diagnosticos view).
Proof.
  intros view. unfold opcoes_diagnostico.
  set (l := Pd.values (lista_diagnosticos view)).
  assert (Hnd : NoDup l) by (apply values_NoDup, unique_from_NoDup).
  split; [|split].
  - apply StronglySorted_strict; [apply np_sort_sorted|].
    apply (Permutation_NoDup (Permutation_sym (np_sort_perm l)) Hnd).
  - intros d. split.
    + intros H. apply (Permutation_in _ (np_sort_perm l)) in H.
      unfold l in H. rewrite values_In, lista_diagnosticos_In in H. tauto.
    + intros H. apply (Permutation_in _ (Permutation_sym (np_sort_perm l))).
      unfold l. rewrite values_In, lista_diagnosticos_In.
      split; [assumption | discriminate].
  - rewrite (Permutation_length (np_sort_perm l)). unfold l.
    apply values_length_all.
    intros c Hc. rewrite lista_diagnosticos_In in Hc. tauto.
Qed.

Lemma In_firstn {A} n (l : list A) x : In x (firstn n l) -> In x l.
Proof.
  intros H. rewrite <- (firstn_skipn n l). apply in_or_app. now left.
Qed.

Lemma df_diag_length view d :
  List.length (filter (fun r => Pd.cell_eqb (diagnostico r) (Some d)) view)
  = Pd.count d (Pd.values (map diagnostico view)).
Proof.
  induction view as [|r view IH]; simpl; [reflexivity|].
  destruct (diagnostico r) as [x|]; simpl; [|exact IH].
  destruct (PyStr.eqb x d); simpl; now rewrite IH.
Qed.

(** X12: for a chosen diagnosis that is not the empty text the profile is
    made of exactly the rows of the view with that diagnosis; their number
    is the count the ranking shows for that diagnosis, and it is not zero
    for a diagnosis offered by the selector.  For the empty text no profile
    is computed. *)
Theorem X12_df_diag :
  forall (desempate : Pd.tie_order) (view : list Row) (d : pystr),
    df_diag view [] = None
    /\ (d <> [] ->
        exists rows,
          df_diag view d = Some rows
          /\ (forall r, In r rows <-> In r view /\ diagnostico r = Some d)
          /\ List.length rows = Pd.count d (Pd.values (map diagnostico view))
          /\ (forall n, In (d, n) (top_diagnosticos desempate view) ->
                        List.length rows = n)
          /\ (In d (opcoes_diagnostico view) -> rows <> [])).
Proof.
  intros desempate view d. split; [reflexivity|]. intros Hne.
  destruct d as [|c d]; [congruence|].
  eexists. split; [reflexivity|]. split; [|split; [|split]].
  - intros r. rewrite filter_In, cell_eqb_eq. tauto.
  - apply df_diag_length.
  - intros n Hn. rewrite df_diag_length.
    unfold top_diagnosticos in Hn. apply In_firstn in Hn.
    rewrite value_counts_In in Hn. destruct Hn as [_ ->].
    now rewrite values_df_clean_diag.
  - intros Hopt Hnil.
    assert (Hin : In (c :: d) (Pd.values (map diagnostico view))).
    { unfold opcoes_diagnostico in Hopt.
      apply (Permutation_in _ (np_sort_perm _)) in Hopt.
      rewrite values_In, lista_diagnosticos_In in Hopt.
      rewrite values_In. tauto. }
    apply count_pos in Hin.
    rewrite <- df_diag_length, Hnil in Hin. simpl in Hin. lia.
Qed.

Lemma X12_exemplo :
  py "GRIPE" <> []
  /\ exists rows,
       df_diag (carregar_dados iso_date exemplo) (py "GRIPE") = Some rows
       /\ (forall r, In r rows <->
                     In r (carregar_dados iso_date exemplo)
                     /\ diagnostico r = Some (py "GRIPE"))
       /\ List.length rows
          = Pd.count (py "GRIPE")
              (Pd.values (map diagnostico (carregar_dados iso_date exemplo)))
       /\ (forall n, In (py "GRIPE", n)
                        (top_diagnosticos Pd.ultimos_primeiro (carregar_dados iso_date exemplo)) ->
                     List.length rows = n)
       /\ (In (py "GRIPE")
              (opcoes_diagnostico (carregar_dados iso_date exemplo)) ->
           rows <> []).
Proof.
  assert (H : py "GRIPE" <> []) by (vm_compute; discriminate).
  split; [exact H|].
  exact (proj2 (X12_df_diag Pd.ultimos_primeiro (carregar_dados iso_date exemplo) (py "GRIPE")) H).
Defined.

(** ** The two cleanings of [diagnostico] *)

Lemma lstrip_spaces w t :
  forallb PyStr.isspace w = true -> PyStr.lstrip (w ++ t) = PyStr.lstrip t.
Proof.
  induction w as [|c w IH]; simpl; [reflexivity|].
  rewrite andb_true_iff. intros [-> H]. now apply IH.
Qed.

Lemma rstrip_all_spaces w :
  forallb PyStr.isspace w = true -> PyStr.rstrip w = [].
Proof.
  induction w as [|c w IH]; simpl; [reflexivity|].
  rewrite andb_true_iff. intros [-> H]. now rewrite IH.
Qed.

Lemma rstrip_spaces t w :
  forallb PyStr.isspace w = true -> PyStr.rstrip (t ++ w) = PyStr.rstrip t.
Proof.
  intros H. induction t as [|c t IH]; simpl.
  - now apply rstrip_all_spaces.
  - now rewrite IH.
Qed.

Lemma strip_padded w1 t w2 :
  forallb PyStr.isspace w1 = true -> forallb PyStr.isspace w2 = true ->
  PyStr.strip (w1 ++ t ++ w2) = PyStr.strip t.
Proof.
  intros H1 H2. unfold PyStr.strip. rewrite lstrip_spaces by assumption.
  assert (E : PyStr.lstrip (t ++ w2)
              = PyStr.lstrip t ++ (if forallb PyStr.isspace t then [] else w2)).
  { clear H1. induction t as [|c t IH]; simpl.
    - induction w2 as [|c w2 IHw]; simpl; [reflexivity|].
      simpl in H2. apply andb_true_iff in H2 as [-> H2]. now apply IHw.
    - destruct (PyStr.isspace c); simpl; [exact IH | reflexivity]. }
  rewrite E. destruct (forallb PyStr.isspace t).
  - now rewrite app_nil_r.
  - now apply rstrip_spaces.
Qed.

Lemma strip_ends s : sem_espacos_nas_pontas (PyStr.strip s).
Proof.
  split.
  - apply rstrip_head, lstrip_head.
  - intros t c E. now apply (strip_last s t c).
Qed.

(** X13: the regex cleaning of [dashboard6.py] nulls at least what the
    exact-match cleaning of [dashboard5.py] nulls, and whatever it keeps as
    text is the text [dashboard5.py] keeps. *)
Theorem X13_limpar_5_6 :
  forall c : cell,
    (limpar_diagnostico5 c = None -> limpar_diagnostico c = None)
    /\ (limpar_diagnostico c = None
        \/ limpar_diagnostico c = limpar_diagnostico5 c).
Proof.
  intros [s|]; [|split; [reflexivity | now left]].
  unfold limpar_diagnostico5, Pd.replace_value.
  destruct (PyStr.eqb s (py ".NÃO DEFINIDO.")) eqn:E.
  - apply pystr_eqb_eq in E. subst s. split; [reflexivity | now left].
  - cbv [Pd.str_strip option_map]. split; [discriminate|].
    destruct (limpar_diagnostico_cases (Some s)) as [_ [H|H]]; [now left|].
    right. exact H.
Qed.

Lemma X13_marcador :
  limpar_diagnostico5 (Some marcador) = None
  /\ limpar_diagnostico (Some marcador) = None.
Proof.
  assert (H : limpar_diagnostico5 (Some marcador) = None) by reflexivity.
  split; [exact H|].
  exact (proj1 (X13_limpar_5_6 (Some marcador)) H).
Defined.

(** X14: in [dashboard5.py] the placeholder is compared before the text
    is stripped, so a placeholder padded with white space is kept as the
    text [.NÃO DEFINIDO.] and only a second cleaning would null it;
    [dashboard6.py], which strips first, nulls it. *)
Theorem X14_limpar5_padded :
  forall w1 w2 : pystr,
    forallb PyStr.isspace w1 = true ->
    forallb PyStr.isspace w2 = true ->
    w1 ++ w2 <> [] ->
    limpar_diagnostico5 (Some (w1 ++ marcador ++ w2)) = Some marcador
    /\ limpar_diagnostico5 (limpar_diagnostico5 (Some (w1 ++ marcador ++ w2)))
       = None
    /\ limpar_diagnostico (Some (w1 ++ marcador ++ w2)) = None.
Proof.
  intros w1 w2 H1 H2 Hne.
  assert (Es : PyStr.strip (w1 ++ marcador ++ w2) = marcador).
  { rewrite strip_padded by assumption. reflexivity. }
  assert (E5 : limpar_diagnostico5 (Some (w1 ++ marcador ++ w2)) = Some marcador).
  { unfold limpar_diagnostico5, Pd.replace_value.
    destruct (PyStr.eqb (w1 ++ marcador ++ w2) (py ".NÃO DEFINIDO.")) eqn:E.
    - exfalso. apply pystr_eqb_eq in E.
      apply (f_equal (@List.length _)) in E.
      rewrite !length_app in E. change (py ".NÃO DEFINIDO.") with marcador in E.
      destruct w1, w2; simpl in *; try congruence; lia.
    - cbv [Pd.str_strip option_map]. now rewrite Es. }
  split; [exact E5|]. split; [rewrite E5; reflexivity|].
  destruct (limpar_diagnostico_cases (Some (w1 ++ marcador ++ w2))) as [H _].
  cbv zeta in H. apply H. left.
  change (Pd.astype_str (Some (w1 ++ marcador ++ w2)))
    with (w1 ++ marcador ++ w2).
  rewrite Es.
  exact (proj1 (search_NAO_DEFINIDO marcador) eq_refl).
Qed.

Lemma X14_exemplo :
  forallb PyStr.isspace (py " ") = true
  /\ forallb PyStr.isspace (py "") = true
  /\ py " " ++ py "" <> []
  /\ limpar_diagnostico5 (Some (py " " ++ marcador ++ py "")) = Some marcador
  /\ limpar_diagnostico5
       (limpar_diagnostico5 (Some (py " " ++ marcador ++ py ""))) = None
  /\ limpar_diagnostico (Some (py " " ++ marcador ++ py "")) = None.
Proof.
  assert (H1 : forallb PyStr.isspace (py " ") = true) by reflexivity.
  assert (H2 : forallb PyStr.isspace (py "") = true) by reflexivity.
  assert (H3 : py " " ++ py "" <> []) by (vm_compute; discriminate).
  split; [exact H1|]. split; [exact H2|]. split; [exact H3|].
  exact (X14_limpar5_padded (py " ") (py "") H1 H2 H3).
Defined.

(** X15: the KPI and the ranking of [dashboard5.py], which count without
    dropping nulls first, give the same results as those of
    [dashboard6.py] on every view: [value_counts] leaves nulls out by
    itself. *)
Theorem X15_aggregations_5_6 :
  forall (desempate : Pd.tie_order) (view : list Row),
    top_diag5 desempate view = top_diag desempate view
    /\ top_diagnosticos5 desempate view = top_diagnosticos desempate view.
Proof.
  intros desempate view. unfold top_diag5, top_diag, top_diagnosticos5, top_diagnosticos.
  unfold Pd.value_counts.
  now rewrite values_dropna, values_df_clean_diag.
Qed.

(** X16: a diagnosis kept as text by either script has no white space at
    its ends, and a cell made only of white space becomes the empty text,
    not null. *)
Theorem X16_cleaned_text :
  (forall (c : cell) (s : pystr),
     limpar_diagnostico c = Some s \/ limpar_diagnostico5 c = Some s ->
     sem_espacos_nas_pontas s)
  /\ (forall w : pystr,
        forallb PyStr.isspace w = true ->
        limpar_diagnostico (Some w) = Some []
        /\ limpar_diagnostico5 (Some w) = Some []).
Proof.
  split.
  - intros c s [H|H].
    + destruct (limpar_diagnostico_cases c) as [_ [E|E]]; [congruence|].
      rewrite E in H. injection H as <-. apply strip_ends.
    + destruct c as [x|]; [|discriminate].
      unfold limpar_diagnostico5, Pd.replace_value in H.
      destruct (PyStr.eqb x (py ".NÃO DEFINIDO.")); [discriminate|].
      cbv [Pd.str_strip option_map] in H. injection H as <-. apply strip_ends.
  - intros w Hw.
    assert (Es : PyStr.strip w = []).
    { unfold PyStr.strip.
      replace w with (w ++ []) by apply app_nil_r.
      now rewrite lstrip_spaces. }
    split.
    + destruct (limpar_diagnostico_cases (Some w)) as [Hn [E|E]].
      * exfalso. cbv zeta in Hn. apply Hn in E.
        change (Pd.astype_str (Some w)) with w in E. rewrite Es in E.
        destruct E as [(p & a & ws & q & E & _)|E]; [|discriminate].
        destruct p; discriminate.
      * rewrite E. change (Pd.astype_str (Some w)) with w. now rewrite Es.
    + unfold limpar_diagnostico5, Pd.replace_value.
      destruct (PyStr.eqb w (py ".NÃO DEFINIDO.")) eqn:E.
      * apply pystr_eqb_eq in E. subst w. discriminate.
      * cbv [Pd.str_strip option_map]. now rewrite Es.
Qed.

Lemma X16_exemplo :
  (limpar_diagnostico (Some (py "  ASMA ")) = Some (py "ASMA")
   \/ limpar_diagnostico5 (Some (py "  ASMA ")) = Some (py "ASMA"))
  /\ sem_espacos_nas_pontas (py "ASMA").
Proof.
  assert (H : limpar_diagnostico (Some (py "  ASMA ")) = Some (py "ASMA")
              \/ limpar_diagnostico5 (Some (py "  ASMA ")) = Some (py "ASMA"))
    by (left; reflexivity).
  split; [exact H|].
  exact (proj1 X16_cleaned_text (Some (py "  ASMA ")) (py "ASMA") H).
Defined.

(** ** The age rule in days *)

Lemma idade_em_dias e n :
  0 <= days (e - n) / 365 < 120 <-> 0 <= e - n < 43800 * NS_PER_DAY.
Proof.
  unfold days, NS_PER_DAY. generalize (e - n) as d. intros d.
  split; intros H; Z.div_mod_to_equations; lia.
Qed.

(** X17: a line is kept by the loader exactly when both dates parse and
    the visit is not before the birth and less than 43800 days (120 years
    of 365 days) after it, counted to the nanosecond. *)
Theorem X17_idade_valida_dias :
  forall (to_datetime : cell -> option Timestamp) (rr : RawRow),
    idade_valida (tratar to_datetime rr) = true <->
    exists n e,
      to_datetime (raw_dataNascimento rr) = Some n
      /\ to_datetime (raw_dataEntrada rr) = Some e
      /\ 0 <= e - n < 43800 * NS_PER_DAY.
Proof.
  intros to_datetime rr. rewrite idade_valida_spec. split.
  - intros (n & e & Hn & He & H). exists n, e.
    repeat split; try assumption; now apply idade_em_dias.
  - intros (n & e & Hn & He & H). exists n, e.
    repeat split; try assumption; now apply idade_em_dias.
Qed.

(** ** The complaint search and the letter case and length of the term *)

Lemma contem_sem_caixa_lower t t' s :
  map PyStr.lower t = map PyStr.lower t' ->
  contem_sem_caixa t s -> contem_sem_caixa t' s.
Proof.
  intros E (a & m & b & -> & H). exists a, m, b. split; [reflexivity|].
  congruence.
Qed.

Lemma contem_sem_caixa_sub a t b s :
  contem_sem_caixa (a ++ t ++ b) s -> contem_sem_caixa t s.
Proof.
  intros (x & m & y & -> & H).
  rewrite !map_app in H.
  apply map_eq_app in H as (ma & m' & -> & Ha & H).
  apply map_eq_app in H as (mt & mb & -> & Ht & Hb).
  exists (x ++ ma), mt, (mb ++ y). split; [|assumption].
  now rewrite <- !app_assoc.
Qed.

Lemma is_special_app a b :
  existsb Re.is_special (a ++ b) = false ->
  existsb Re.is_special a = false /\ existsb Re.is_special b = false.
Proof. rewrite existsb_app. apply orb_false_iff. Qed.

Lemma df_queixa_casos view termo :
  termo <> [] ->
  existsb Re.is_special termo = false ->
  exists rx,
    compilar_termo termo = Some rx
    /\ df_queixa view termo
       = Casos (filter (fun r => Re.search rx (Pd.astype_str (queixa r))) view).
Proof.
  intros Hne Hplain. unfold df_queixa.
  destruct termo as [|c termo]; [congruence|].
  unfold compilar_termo. rewrite Hplain. eexists. split; reflexivity.
Qed.

(** X18: the search does not depend on the letter case of the term: two
    non-empty terms of ordinary characters that are equal once
    lower-cased find the same rows. *)
Theorem X18_df_queixa_case_blind :
  forall (view : list Row) (termo termo' : pystr),
    termo <> [] ->
    existsb Re.is_special termo = false ->
    existsb Re.is_special termo' = false ->
    map PyStr.lower termo = map PyStr.lower termo' ->
    df_queixa view termo = df_queixa view termo'.
Proof.
  intros view t t' Hne Hp Hp' E.
  assert (Hne' : t' <> []).
  { intros ->. destruct t; [congruence | discriminate]. }
  destruct (df_queixa_casos view t Hne Hp) as (rx & Hrx & ->).
  destruct (df_queixa_casos view t' Hne' Hp') as (rx' & Hrx' & ->).
  f_equal. apply filter_ext. intros r. apply bool_ext.
  rewrite (search_termo _ _ _ Hrx), (search_termo _ _ _ Hrx').
  split; apply contem_sem_caixa_lower; congruence.
Qed.

Lemma X18_febre :
  py "febre" <> []
  /\ existsb Re.is_special (py "febre") = false
  /\ existsb Re.is_special (py "FeBRE") = false
  /\ map PyStr.lower (py "febre") = map PyStr.lower (py "FeBRE")
  /\ df_queixa (carregar_dados iso_date exemplo) (py "febre")
     = df_queixa (carregar_dados iso_date exemplo) (py "FeBRE").
Proof.
  assert (H1 : py "febre" <> []) by (vm_compute; discriminate).
  assert (H2 : existsb Re.is_special (py "febre") = false) by reflexivity.
  assert (H3 : existsb Re.is_special (py "FeBRE") = false) by reflexivity.
  assert (H4 : map PyStr.lower (py "febre") = map PyStr.lower (py "FeBRE"))
    by reflexivity.
  repeat (split; [assumption|]).
  exact (X18_df_queixa_case_blind (carregar_dados iso_date exemplo)
                                  (py "febre") (py "FeBRE") H1 H2 H3 H4).
Defined.

(** X19: a longer term finds fewer rows: every row found by a term of
    ordinary characters is in the view and is also found by each
    non-empty part of that term. *)
Theorem X19_df_queixa_narrows :
  forall (view : list Row) (a termo b : pystr),
    termo <> [] ->
    existsb Re.is_special (a ++ termo ++ b) = false ->
    exists rows rows',
      df_queixa view termo = Casos rows
      /\ df_queixa view (a ++ termo ++ b) = Casos rows'
      /\ incl rows' rows
      /\ incl rows view.
Proof.
  intros view a t b Hne Hp.
  assert (Hpt : existsb Re.is_special t = false).
  { apply is_special_app in Hp as [_ Hp]. now apply is_special_app in Hp. }
  assert (Hne' : a ++ t ++ b <> []).
  { destruct a; [|discriminate]. destruct t; [congruence | discriminate]. }
  destruct (df_queixa_casos view t Hne Hpt) as (rx & Hrx & ->).
  destruct (df_queixa_casos view _ Hne' Hp) as (rx' & Hrx' & ->).
  do 2 eexists. split; [reflexivity|]. split; [reflexivity|]. split.
  - intros r Hr. rewrite filter_In in *. destruct Hr as [Hr Hs].
    split; [assumption|].
    rewrite (search_termo _ _ _ Hrx') in Hs. rewrite (search_termo _ _ _ Hrx).
    now apply (contem_sem_caixa_sub a t b).
  - intros r Hr. now apply filter_In in Hr as [Hr _].
Qed.

Lemma X19_febre :
  py "febre" <> []
  /\ existsb Re.is_special (py "" ++ py "febre" ++ py " alta") = false
  /\ exists rows rows',
       df_queixa (carregar_dados iso_date exemplo) (py "febre") = Casos rows
       /\ df_queixa (carregar_dados iso_date exemplo)
                    (py "" ++ py "febre" ++ py " alta") = Casos rows'
       /\ incl rows' rows
       /\ incl rows (carregar_dados iso_date exemplo).
Proof.
  assert (H1 : py "febre" <> []) by (vm_compute; discriminate).
  assert (H2 : existsb Re.is_special (py "" ++ py "febre" ++ py " alta") = false)
    by reflexivity.
  split; [exact H1|]. split; [exact H2|].
  exact (X19_df_queixa_narrows (carregar_dados iso_date exemplo)
                               (py "") (py "febre") (py " alta") H1 H2).
Defined.

(** ** Bands, the KPI against the ranking, and the ends of the series *)

Lemma cut_outside a :
  Pd.cut bins labels (Some a) = None <-> a < 0 \/ 120 <= a.
Proof.
  split.
  - intros H. destruct (Z.lt_ge_cases a 0) as [Hl|Hl]; [now left|].
    destruct (Z.lt_ge_cases a 120) as [Hu|Hu]; [|now right].
    rewrite cut_faixa_de in H by lia. discriminate.
  - unfold Pd.cut, bins. cbn [Pd.searchsorted_right].
    intros [H|H];
      repeat match goal with
             | |- context [Z.leb ?x a] => destruct (Z.leb_spec x a)
             end; try lia; reflexivity.
Qed.

(** X20: [pd.cut] leaves the band undefined exactly for ages below 0 or
    from 120 on, which are the ages the loader drops: every row of the
    Dataset has one of the five bands, the one of its age; and the loader
    never returns more rows than the file has lines. *)
Theorem X20_faixa_definida :
  forall (to_datetime : cell -> option Timestamp) (csv : list RawRow),
    (forall a, Pd.cut bins labels (Some a) = None <-> a < 0 \/ 120 <= a)
    /\ Forall (fun r => exists a,
                 idade_no_atendimento r = Some a
                 /\ faixa_etaria r = Some (faixa_de a)
                 /\ In (faixa_de a) labels)
              (carregar_dados to_datetime csv)
    /\ (List.length (carregar_dados to_datetime csv) <= List.length csv)%nat.
Proof.
  intros to_datetime csv. split; [exact cut_outside|]. split.
  - apply Forall_forall. intros r Hr.
    destruct (carregar_dados_idade _ _ _ Hr) as (a & n & e & _ & _ & Ha & _ & Hr').
    exists a. split; [assumption|]. split; [|apply faixa_de_label].
    apply carregar_dados_In in Hr as (rr & _ & -> & _).
    unfold linha, com_faixa_etaria in *. simpl in *.
    rewrite Ha. now apply cut_faixa_de.
  - rewrite carregar_dados_eq, length_map. apply filter_length_le.
Qed.

Lemma fold_best_head l x :
  Forall (fun y : pystr * nat => (snd y <= snd x)%nat) l ->
  fold_left (fun best y => if (snd best <? snd y)%nat then y else best) l x = x.
Proof.
  induction l as [|y l IH]; intros H; simpl; [reflexivity|].
  inversion H as [|? ? Hy Hl]; subst.
  destruct (Nat.ltb_spec (snd x) (snd y)); [lia|]. now apply IH.
Qed.

Lemma idxmax_sorted x l :
  StronglySorted count_desc (x :: l) -> Pd.idxmax (x :: l) = Some (fst x).
Proof.
  intros H. inversion H as [|? ? _ Hf]; subst. simpl.
  rewrite fold_best_head; [reflexivity|].
  rewrite Forall_forall in *. intros y Hy.
  exact (Hf y Hy).
Qed.

(** X21: the diagnosis shown by the KPI is the first entry of the
    ranking, whenever the ranking has an entry; ties are therefore
    resolved the same way in both places. *)
Theorem X21_top_diag_heads_ranking :
  forall (desempate : Pd.tie_order) (view : list Row) (d : pystr) (n : nat)
         (rest : list (pystr * nat)),
    top_diagnosticos desempate view = (d, n) :: rest ->
    top_diag desempate view = d.
Proof.
  intros desempate view d n rest H. unfold top_diag, top_diagnosticos in *.
  assert (E : Pd.value_counts desempate (Pd.dropna (map diagnostico view))
              = Pd.value_counts desempate (map diagnostico (df_clean_diag view))).
  { unfold Pd.value_counts. now rewrite values_dropna, values_df_clean_diag. }
  rewrite E.
  pose proof (value_counts_sorted desempate
                (map diagnostico (df_clean_diag view))) as Hs.
  destruct (Pd.value_counts desempate (map diagnostico (df_clean_diag view)))
    as [|x l]; [discriminate|].
  simpl in H. injection H as -> _.
  now rewrite (idxmax_sorted _ _ Hs).
Qed.

Lemma X21_exemplo :
  top_diagnosticos Pd.ultimos_primeiro (carregar_dados iso_date exemplo)
  = (py "ASMA", 1%nat) :: [(py "GRIPE", 1%nat)]
  /\ top_diag Pd.ultimos_primeiro (carregar_dados iso_date exemplo)
     = py "ASMA".
Proof.
  assert (H : top_diagnosticos Pd.ultimos_primeiro
                               (carregar_dados iso_date exemplo)
              = (py "ASMA", 1%nat) :: [(py "GRIPE", 1%nat)])
    by (vm_compute; reflexivity).
  split; [exact H|].
  exact (X21_top_diag_heads_ranking _ _ _ _ _ H).
Defined.

Lemma month_range_ends lo hi :
  lo <= hi ->
  exists mid, Pd.month_range lo hi = lo :: mid
              /\ exists ini, Pd.month_range lo hi = ini ++ [hi].
Proof.
  intros H. unfold Pd.month_range.
  replace (Z.to_nat (hi - lo + 1)) with (S (Z.to_nat (hi - lo))) by lia.
  split with (map (fun i => lo + Z.of_nat i) (seq 1 (Z.to_nat (hi - lo)))).
  split.
  - simpl. f_equal. lia.
  - exists (map (fun i => lo + Z.of_nat i) (seq 0 (Z.to_nat (hi - lo)))).
    rewrite seq_S, map_app. simpl. do 2 f_equal. lia.
Qed.

Lemma visitas_no_mes_pos view r m :
  In r view -> mes r = Some m -> (1 <= visitas_no_mes view m)%nat.
Proof.
  intros Hr Hm. unfold visitas_no_mes.
  induction view as [|x view IH]; [contradiction|]. simpl.
  destruct Hr as [->|Hr].
  - rewrite Hm, Z.eqb_refl. simpl. lia.
  - destruct (mes x) as [k|]; [destruct (k =? m)|]; simpl; auto.
Qed.

(** X22: on a filtered view of a loaded Dataset that is not empty the
    monthly series starts and ends with a month that has visits: empty
    months appear only between two months with visits. *)
Theorem X22_vendas_tempo_ends :
  forall (to_datetime : cell -> option Timestamp) (csv : list RawRow)
         (cidades : list cell) (data_inicio data_fim : Z),
    let view := df_filtered (carregar_dados to_datetime csv)
                            cidades data_inicio data_fim in
    view <> [] ->
    exists first last_ mid ini,
      vendas_tempo view = first :: mid
      /\ vendas_tempo view = ini ++ [last_]
      /\ (1 <= snd first)%nat /\ (1 <= snd last_)%nat.
Proof.
  intros to_datetime csv cidades a b view Hne.
  assert (Hts : entradas view <> []).
  { destruct view as [|r view'] eqn:E; [congruence|].
    assert (Hr : In r view) by (rewrite E; now left).
    unfold view in Hr. apply df_filtered_In in Hr as (_ & _ & t & Ht & _).
    simpl. rewrite Ht. discriminate. }
  destruct (vendas_tempo_spec view Hts)
    as (lo & hi & (r1 & Hr1 & H1) & (r2 & Hr2 & H2) & Hb & E).
  assert (Hle : lo <= hi) by (destruct (Hb r1 lo Hr1 H1); lia).
  destruct (month_range_ends lo hi Hle) as (mid & Em & ini & Ei).
  exists (month_end lo, visitas_no_mes view lo),
         (month_end hi, visitas_no_mes view hi),
         (map (fun m => (month_end m, visitas_no_mes view m)) mid),
         (map (fun m => (month_end m, visitas_no_mes view m)) ini).
  split; [rewrite E, Em; reflexivity|].
  split; [rewrite E, Ei, map_app; reflexivity|].
  split; simpl.
  - exact (visitas_no_mes_pos view r1 lo Hr1 H1).
  - exact (visitas_no_mes_pos view r2 hi Hr2 H2).
Qed.

Lemma X22_exemplo :
  let view := df_filtered (carregar_dados iso_date exemplo)
                          [Some (py "Bauru")] 18262 18500 in
  view <> []
  /\ exists first last_ mid ini,
       vendas_tempo view = first :: mid
       /\ vendas_tempo view = ini ++ [last_]
       /\ (1 <= snd first)%nat /\ (1 <= snd last_)%nat.
Proof.
  intros view.
  assert (H : view <> []) by (vm_compute; discriminate).
  split; [exact H|].
  exact (X22_vendas_tempo_ends iso_date exemplo [Some (py "Bauru")]
                               18262 18500 H).
Defined.
